(** * Tech Talk Content Reviewer: the evaluation engine and its HTTP wrapper

    A shallow embedding of [content_reviewer.py] (class
    [TechTalkContentReviewer]) and of the [/review] handler of [api.py],
    followed by the properties of the specification that were checked
    against it.

    Modelling choices, all stated where they are used:
    - a Python [str] is a list of code points; the model covers the code
      points below 256 (Latin-1), for which [str.lower], [str.isspace] and
      the word class of [re] are written out character by character;
    - a Python [int] is a [Z]; lengths and counts are [nat];
    - the wall clock and the iteration order of a [set] of strings (which
      CPython derives from a per-process hash seed) are explicit inputs;
    - exceptions are values of a sum type and [try ... except] is a handler. *)

From Stdlib Require Import List Ascii String ZArith Lia Bool Arith.
From Stdlib Require Import DecimalString.
Import ListNotations.

Local Open Scope list_scope.
Local Open Scope bool_scope.

(* ------------------------------------------------------------------ *)
(** ** The fragment of Python's [str] used by the program *)

Module PyStr.

Definition str := list ascii.

(** A literal of the source. *)
Definition lit (s : string) : str := list_ascii_of_string s.

Definition code (c : ascii) : nat := nat_of_ascii c.

Definition between (lo hi n : nat) : bool := (lo <=? n) && (n <=? hi).

(** The line feed, written ['\n'] in the source. *)
Definition nl : ascii := ascii_of_nat 10.

(** [str.isspace] on one code point below 256: TAB..CR, FS..US, space,
    NEL (0x85) and NBSP (0xA0).  [strip] and [split] use this class. *)
Definition isspace (c : ascii) : bool :=
  let n := code c in
  between 9 13 n || between 28 32 n || (n =? 133) || (n =? 160).

(** [str.lower] on one code point below 256: A..Z and the Latin-1 capitals
    0xC0..0xDE (the multiplication sign 0xD7 apart) move up by 32. *)
Definition lower_char (c : ascii) : ascii :=
  let n := code c in
  if between 65 90 n || (between 192 222 n && negb (n =? 215))
  then ascii_of_nat (n + 32) else c.

Definition lower (s : str) : str := map lower_char s.

Definition is_nil {A : Type} (l : list A) : bool :=
  match l with [] => true | _ :: _ => false end.

(** Truth value of a string or of a list: [if s] in the source. *)
Definition truthy {A : Type} (s : list A) : bool := negb (is_nil s).

Fixpoint lstrip (s : str) : str :=
  match s with
  | [] => []
  | c :: s' => if isspace c then lstrip s' else s
  end.

Definition rstrip (s : str) : str := rev (lstrip (rev s)).

(** [s.strip()] *)
Definition strip (s : str) : str := rstrip (lstrip s).

(** [s.split()]: the maximal runs of non-whitespace characters.  [cur] is
    the run being read, last character first. *)
Fixpoint split_ws_aux (cur : str) (s : str) : list str :=
  match s with
  | [] => if is_nil cur then [] else [rev cur]
  | c :: s' =>
      if isspace c
      then (if is_nil cur then split_ws_aux [] s'
            else rev cur :: split_ws_aux [] s')
      else split_ws_aux (c :: cur) s'
  end.

Definition split_ws (s : str) : list str := split_ws_aux [] s.

(** [s.split(sep)] for a separator of one character: one more field than
    there are separators, empty fields kept. *)
Fixpoint split_on (sep : ascii) (s : str) : list str :=
  match s with
  | [] => [[]]
  | c :: s' =>
      if Ascii.eqb c sep then [] :: split_on sep s'
      else match split_on sep s' with
           | l :: ls => (c :: l) :: ls
           | [] => [[c]]
           end
  end.

(** [s.startswith(p)] *)
Fixpoint startswith (p s : str) : bool :=
  match p with
  | [] => true
  | a :: p' =>
      match s with
      | [] => false
      | b :: s' => Ascii.eqb a b && startswith p' s'
      end
  end.

(** [sub in s] *)
Fixpoint contains (sub s : str) : bool :=
  startswith sub s ||
  match s with
  | [] => false
  | _ :: s' => contains sub s'
  end.

(** [sep.join(l)] *)
Fixpoint join (sep : str) (l : list str) : str :=
  match l with
  | [] => []
  | x :: rest =>
      match rest with
      | [] => x
      | _ :: _ => x ++ sep ++ join sep rest
      end
  end.

(** [str(n)] for a length. *)
Definition str_of_nat (n : nat) : str :=
  lit (NilEmpty.string_of_uint (Nat.to_uint n)).

Definition last_opt {A : Type} (l : list A) (d : option A) : option A :=
  fold_left (fun _ x => Some x) l d.

End PyStr.

(* ------------------------------------------------------------------ *)
(** ** The fragment of Python's [re] used by the program

    The eight patterns are built from literals, [.], [\b], sequence,
    alternation and repetition of a single character ([.*], [.*?], [x+],
    [\.{3,}]).  The matcher lists the ways a pattern can match at a
    position in the order in which the backtracking engine of [re] tries
    them, so that the head of the list is the match [re] reports.  All
    patterns are compiled with [re.IGNORECASE]. *)

Module Re.
Import PyStr.

Inductive atom : Type :=
| ALit (c : ascii)   (* a literal character *)
| ADot.              (* [.]: any character but the line feed *)

Inductive regex : Type :=
| Eps                                    (* the empty pattern *)
| Atom (a : atom)
| Bnd                                    (* [\b] *)
| Seq (r1 r2 : regex)
| Alt (r1 r2 : regex)                    (* [r1|r2], [r1] tried first *)
| Rep (greedy : bool) (a : atom) (lo : nat).  (* [a{lo,}] or [a{lo,}?] *)

(** The word class [\w] on a code point below 256: digits, ASCII letters,
    the underscore and the alphanumeric characters of Latin-1. *)
Definition is_word (c : ascii) : bool :=
  let n := code c in
  between 48 57 n || between 65 90 n || (n =? 95) || between 97 122 n
  || (n =? 170) || between 178 179 n || (n =? 181) || between 185 186 n
  || between 188 190 n || between 192 214 n || between 216 246 n
  || between 248 255 n.

Definition is_word_opt (c : option ascii) : bool :=
  match c with Some c => is_word c | None => false end.

(** [\b] holds between [prev] and [next] when exactly one of them is a
    word character; the ends of the text count as non-word. *)
Definition at_boundary (prev next : option ascii) : bool :=
  xorb (is_word_opt prev) (is_word_opt next).

(** One character against an atom, ignoring case. *)
Definition atom_ok (a : atom) (c : ascii) : bool :=
  match a with
  | ALit x => Ascii.eqb (lower_char c) (lower_char x)
  | ADot => negb (Ascii.eqb c nl)
  end.

(** Length of the longest prefix of [s] whose characters all fit [a]. *)
Fixpoint run_len (a : atom) (s : str) : nat :=
  match s with
  | [] => 0
  | c :: s' => if atom_ok a c then S (run_len a s') else 0
  end.

(** The repetition counts a repetition tries, in order. *)
Definition rep_counts (greedy : bool) (lo hi : nat) : list nat :=
  if hi <? lo then []
  else let up := seq lo (hi - lo + 1) in
       if greedy then rev up else up.

(** [rmatch r prev s]: the matches of [r] at the start of [s], the
    character before being [prev]; each is the text matched and the text
    left, in the engine's order of preference. *)
Fixpoint rmatch (r : regex) (prev : option ascii) (s : str)
  : list (str * str) :=
  match r with
  | Eps => [([], s)]
  | Atom a =>
      match s with
      | c :: s' => if atom_ok a c then [([c], s')] else []
      | [] => []
      end
  | Bnd => if at_boundary prev (hd_error s) then [([], s)] else []
  | Seq r1 r2 =>
      flat_map
        (fun m1 =>
           map (fun m2 => (fst m1 ++ fst m2, snd m2))
               (rmatch r2 (last_opt (fst m1) prev) (snd m1)))
        (rmatch r1 prev s)
  | Alt r1 r2 => rmatch r1 prev s ++ rmatch r2 prev s
  | Rep greedy a lo =>
      map (fun n => (firstn n s, skipn n s))
          (rep_counts greedy lo (run_len a s))
  end.

(** The match [re] reports at this position, if any. *)
Definition match_at (r : regex) (prev : option ascii) (s : str)
  : option str :=
  match rmatch r prev s with
  | m :: _ => Some (fst m)
  | [] => None
  end.

(** [re.search(r, s)] as a truth value: is there a match at some position? *)
Fixpoint search_from (r : regex) (prev : option ascii) (s : str) : bool :=
  match match_at r prev s with
  | Some _ => true
  | None =>
      match s with
      | [] => false
      | c :: s' => search_from r (Some c) s'
      end
  end.

Definition search (r : regex) (s : str) : bool := search_from r None s.

(** [re.findall(r, s)]: the non-overlapping matches from left to right.
    After a match of [n] characters the scan resumes behind it; [skip]
    counts the characters of the last match still to be passed.  Each of
    the program's patterns has at most one capturing group, and that group
    spans the whole match, so the strings returned are the matches. *)
Fixpoint findall_from (r : regex) (prev : option ascii) (s : str)
         (skip : nat) {struct s} : list str :=
  match skip with
  | S k =>
      match s with
      | [] => []
      | c :: s' => findall_from r (Some c) s' k
      end
  | O =>
      match match_at r prev s with
      | Some m =>
          m :: match s with
               | [] => []
               | c :: s' => findall_from r (Some c) s' (pred (List.length m))
               end
      | None =>
          match s with
          | [] => []
          | c :: s' => findall_from r (Some c) s' 0
          end
      end
  end.

Definition findall (r : regex) (s : str) : list str := findall_from r None s 0.

(** A literal word of a pattern. *)
Fixpoint word (s : str) : regex :=
  match s with
  | [] => Eps
  | c :: s' => Seq (Atom (ALit c)) (word s')
  end.

Definition w (s : string) : regex := word (lit s).

(** [.*] and [.*?] *)
Definition dot_star : regex := Rep true ADot 0.
Definition dot_star_lazy : regex := Rep false ADot 0.

Fixpoint alts (r : regex) (rs : list regex) : regex :=
  match rs with
  | [] => r
  | r' :: rs' => Alt r (alts r' rs')
  end.

End Re.

(* ------------------------------------------------------------------ *)
(** ** [len(short_sections) > len(lines) * 0.3]

    The right-hand side is a binary64 product.  The double nearest to 0.3
    is [m03 * 2^-54]; the product of an integer with it is rounded to 53
    bits, to nearest, ties to even.  Python compares an [int] with a
    [float] exactly. *)

Module PyFloat.
Local Open Scope Z_scope.

Definition m03 : Z := 5404319552844595.

(** [n * 0.3] as a pair [(q, e)] standing for [q * 2^e]. *)
Definition mul_0_3 (n : nat) : Z * Z :=
  let p := Z.of_nat n * m03 in
  let bits := if p =? 0 then 0 else Z.log2 p + 1 in
  if bits <=? 53 then (p, -54)
  else
    let sh := bits - 53 in
    let q := Z.shiftr p sh in
    let rem := p - Z.shiftl q sh in
    let half := Z.shiftl 1 (sh - 1) in
    let q' := if (half <? rem) || ((rem =? half) && Z.odd q)
              then q + 1 else q in
    (q', sh - 54).

(** [k > f] for an integer [k] and a double [f = q * 2^e]. *)
Definition int_gt (k : nat) (f : Z * Z) : bool :=
  let (q, e) := f in
  if 0 <=? e then q * 2 ^ e <? Z.of_nat k
  else q <? Z.of_nat k * 2 ^ (- e).

End PyFloat.

(* ------------------------------------------------------------------ *)
(** ** [content_reviewer.py]: class [TechTalkContentReviewer] *)

Module Reviewer.
Import PyStr Re.

Inductive QualityRating : Type := HIGH | MEDIUM | LOW.

(** [QualityRating.value] *)
Definition value (r : QualityRating) : str :=
  match r with
  | HIGH => lit "High"
  | MEDIUM => lit "Medium"
  | LOW => lit "Low"
  end.

Record PlaceholderFlags : Type := {
  has_placeholders : bool;
  details : str
}.

Record ContentReview : Type := {
  content_id : str;
  title : str;
  overall_rating : str;
  completeness_score : Z;
  placeholder_flags : PlaceholderFlags;
  key_issues : list str;
  suggested_fixes : list str;
  evaluation_timestamp : str
}.

(** What a call reads from outside its arguments: the order in which a
    [set] of strings built from a list is iterated (fixed by the hash seed
    of the running interpreter), and the two readings of the wall clock,
    already formatted. *)
Record Env : Type := {
  set_iter : list str -> list str;
  now_id : str;     (* [datetime.now().strftime('%Y%m%d_%H%M%S')] *)
  now_iso : str     (* [datetime.now().isoformat()] *)
}.

(** An iteration order is one of a set: every element once. *)
Definition set_order (f : list str -> list str) : Prop :=
  forall xs, NoDup (f xs) /\ forall x, In x (f xs) <-> In x xs.

(** The eight patterns of [self.placeholder_patterns], in order. *)

(** [\b(tbd|todo|coming soon|placeholder|lorem ipsum|insert.*here)\b] *)
Definition pattern_keywords : regex :=
  Seq Bnd
    (Seq (alts (w "tbd")
               [w "todo"; w "coming soon"; w "placeholder"; w "lorem ipsum";
                Seq (w "insert") (Seq dot_star (w "here"))])
         Bnd).

(** [\{\{.*?\}\}] *)
Definition pattern_template : regex :=
  Seq (w "{{") (Seq dot_star_lazy (w "}}")).

(** [\[.*?\]] *)
Definition pattern_bracketed : regex :=
  Seq (w "[") (Seq dot_star_lazy (w "]")).

(** [xxx+] *)
Definition pattern_xs : regex := Seq (w "xx") (Rep true (ALit "x") 1).

(** [\.{3,}] *)
Definition pattern_dots : regex := Rep true (ALit ".") 3.

(** [pending|draft|wip|work in progress] *)
Definition pattern_wip : regex :=
  alts (w "pending") [w "draft"; w "wip"; w "work in progress"].

(** [to be.*(?:added|written|completed|updated)] *)
Definition pattern_to_be : regex :=
  Seq (w "to be")
      (Seq dot_star
           (alts (w "added") [w "written"; w "completed"; w "updated"])).

(** [example.*(?:goes here|needed|tbd)] *)
Definition pattern_example_stub : regex :=
  Seq (w "example")
      (Seq dot_star (alts (w "goes here") [w "needed"; w "tbd"])).

Definition placeholder_patterns : list regex :=
  [pattern_keywords; pattern_template; pattern_bracketed; pattern_xs;
   pattern_dots; pattern_wip; pattern_to_be; pattern_example_stub].

(** [self.quality_indicators]: the points each criterion can give.  The
    scorer does not read the table; it repeats the numbers. *)
Definition quality_indicators : list (string * Z) :=
  [("title", 10); ("overview", 15); ("body_content", 30); ("examples", 20);
   ("references", 10); ("metadata", 10); ("formatting", 5)]%string%Z.

(** [any(k in s for k in kws)] *)
Definition any_in (kws : list string) (s : str) : bool :=
  existsb (fun k => contains (lit k) s) kws.

(** The loop of [_extract_title]: the first of [lines] that returns. *)
Fixpoint scan_title (lines : list str) : option str :=
  match lines with
  | [] => None
  | l :: rest =>
      let line := strip l in
      if truthy line && negb (startswith (lit "#") line)
      then Some (firstn 100 line)
      else if startswith (lit "# ") line
      then Some (strip (skipn 2 line))
      else scan_title rest
  end.

Definition _extract_title (content : str) : str :=
  let lines := split_on nl (strip content) in
  match scan_title (firstn 5 lines) with
  | Some t => t
  | None => lit "Untitled Content"
  end.

Definition is_short (line : str) : bool :=
  let n := List.length (strip line) in (0 <? n) && (n <? 20).

Definition _detect_placeholders (env : Env) (content : str)
  : PlaceholderFlags :=
  let content_lower := lower content in
  let found_placeholders :=
    flat_map (fun pattern => findall pattern content_lower)
             placeholder_patterns in
  let lines := split_on nl content in
  let short_sections := filter is_short lines in
  let has :=
    truthy found_placeholders
    || PyFloat.int_gt (List.length short_sections)
                      (PyFloat.mul_0_3 (List.length lines)) in
  let details := [] in
  let details :=
    if truthy found_placeholders
    then lit "Found placeholders: "
         ++ join (lit ", ") (set_iter env (firstn 3 found_placeholders))
    else details in
  let details :=
    if 5 <? List.length short_sections
    then details ++ lit " " ++ str_of_nat (List.length short_sections)
         ++ lit " very short lines detected"
    else details in
  {| has_placeholders := has; details := strip details |}.

Local Open Scope Z_scope.

Definition _calculate_completeness_score (content title : str) : Z :=
  let score := 0 in
  let content_lower := lower content in
  let word_count := List.length (split_ws content) in
  (* Title quality *)
  let score :=
    if truthy title && (5 <? List.length (strip title))%nat then score + 10
    else if truthy title then score + 5
    else score in
  (* Overview/introduction *)
  let score :=
    if any_in ["overview"; "introduction"; "summary"]%string content_lower
    then score + 15
    else if (50 <? word_count)%nat then score + 10
    else score in
  (* Body content depth *)
  let score :=
    if (500 <? word_count)%nat then score + 30
    else if (200 <? word_count)%nat then score + 20
    else if (100 <? word_count)%nat then score + 10
    else score in
  (* Examples *)
  let score :=
    if any_in ["example"; "for instance"; "code"; "```"; "sample"]%string
              content_lower
    then score + 20
    else if contains (lit "step") content_lower
            || contains (lit "how to") content_lower
    then score + 10
    else score in
  (* References/links *)
  let score :=
    if contains (lit "http") content || contains (lit "www.") content
       || contains (lit "[") content
    then score + 10
    else if contains (lit "see also") content_lower
            || contains (lit "reference") content_lower
    then score + 5
    else score in
  (* Metadata *)
  let score :=
    if any_in ["author"; "date"; "updated"; "version"; "owner"]%string
              content_lower
    then score + 10
    else score in
  (* Formatting *)
  let score :=
    if contains (lit "#") content || contains (lit "*") content
       || contains (lit "-") content
    then score + 5
    else score in
  Z.min score 100.

Definition _determine_overall_rating (score : Z) (flags : PlaceholderFlags)
  : QualityRating :=
  let score := if has_placeholders flags then score - 20 else score in
  if score >=? 80 then HIGH
  else if score >=? 50 then MEDIUM
  else LOW.

Local Close Scope Z_scope.

Definition issue_title : str := lit "Missing or inadequate title".
Definition issue_brief : str :=
  lit "Content too brief - needs more detailed explanation".
Definition issue_examples : str :=
  lit "Missing practical examples or code samples".
Definition issue_metadata : str :=
  lit "Missing metadata (author, date, version info)".
Definition issue_references : str :=
  lit "No external references or links provided".
Definition issue_placeholder : str :=
  lit "Contains placeholder text that needs completion".

(** [issues.append(msg)] under a condition. *)
Definition append_if (b : bool) (msg : str) (l : list str) : list str :=
  if b then l ++ [msg] else l.

Definition _identify_key_issues (content title : str) (score : Z)
  : list str :=
  let issues := [] in
  let content_lower := lower content in
  let word_count := List.length (split_ws content) in
  let issues :=
    append_if (negb (truthy title) || (List.length (strip title) <? 5))
              issue_title issues in
  let issues := append_if (word_count <? 100) issue_brief issues in
  let issues :=
    append_if (negb (any_in ["example"; "code"; "```"]%string content_lower))
              issue_examples issues in
  let issues :=
    append_if (negb (any_in ["author"; "date"; "updated"; "owner"]%string
                            content_lower))
              issue_metadata issues in
  let issues :=
    append_if (negb (contains (lit "http") content)
               && negb (contains (lit "reference") content_lower))
              issue_references issues in
  let placeholder_found :=
    existsb (fun pattern => search pattern content_lower)
            placeholder_patterns in
  let issues := append_if placeholder_found issue_placeholder issues in
  firstn 5 issues.

Definition fix_title : str :=
  lit "Add a clear, descriptive title that summarizes the content purpose".
Definition fix_brief : str :=
  lit "Expand content with detailed explanations, use cases, and context".
Definition fix_examples : str :=
  lit "Include practical code examples with step-by-step explanations".
Definition fix_metadata : str :=
  lit "Add document metadata: author name, creation/update dates, version".
Definition fix_references : str :=
  lit "Include relevant links to documentation, tools, or related resources".
Definition fix_placeholder : str :=
  lit "Replace all placeholder text with actual content".
Definition fix_general : str :=
  lit "Consider adding troubleshooting section or FAQ".

(** The body of the loop of [_generate_suggestions]: what one issue
    appends. *)
Definition suggestion_for (issue : str) : list str :=
  let low := lower issue in
  if contains (lit "title") low then [fix_title]
  else if contains (lit "brief") low then [fix_brief]
  else if contains (lit "example") low then [fix_examples]
  else if contains (lit "metadata") low then [fix_metadata]
  else if contains (lit "reference") low then [fix_references]
  else if contains (lit "placeholder") low then [fix_placeholder]
  else [].

Definition _generate_suggestions (issues : list str) (content : str)
  : list str :=
  let suggestions := flat_map suggestion_for issues in
  let suggestions :=
    append_if (List.length (split_ws content) <? 200) fix_general
              suggestions in
  firstn 5 suggestions.

Definition review_content (env : Env) (content title content_id : str)
  : ContentReview :=
  let title := if negb (truthy title) then _extract_title content else title in
  let content_id :=
    if negb (truthy content_id) then lit "content_" ++ now_id env
    else content_id in
  let placeholder_flags := _detect_placeholders env content in
  let completeness_score := _calculate_completeness_score content title in
  let overall_rating :=
    _determine_overall_rating completeness_score placeholder_flags in
  let key_issues := _identify_key_issues content title completeness_score in
  let suggested_fixes := _generate_suggestions key_issues content in
  {| content_id := content_id;
     title := title;
     overall_rating := value overall_rating;
     completeness_score := completeness_score;
     placeholder_flags := placeholder_flags;
     key_issues := key_issues;
     suggested_fixes := suggested_fixes;
     evaluation_timestamp := now_iso env |}.

End Reviewer.

(* ------------------------------------------------------------------ *)
(** ** [api.py]: the [/review] handler *)

Module Api.
Import PyStr.

(** The exceptions a handler body can raise.  FastAPI's [HTTPException]
    derives from [Exception], so that [except Exception] catches both. *)
Inductive exn : Type :=
| HTTPException (status_code : Z) (detail : str)
| Fault (message : str).     (* any other [Exception] *)

Definition result (A : Type) : Type := (exn + A)%type.

Definition raise {A : Type} (e : exn) : result A := inl e.
Definition ret {A : Type} (a : A) : result A := inr a.

(** [try: body  except Exception as e: handler(e)] *)
Definition try_except {A : Type} (body : result A) (handler : exn -> result A)
  : result A :=
  match body with
  | inl e => handler e
  | inr a => inr a
  end.

Record ContentRequest : Type := {
  content : str;
  title : option str;        (* [Optional[str] = ""] *)
  content_id : option str    (* [Optional[str] = ""] *)
}.

Record ContentResponse : Type := {
  r_content_id : str;
  r_title : str;
  r_overall_rating : str;
  r_completeness_score : Z;
  r_placeholder_flags : bool * str;   (* has_placeholders, details *)
  r_key_issues : list str;
  r_suggested_fixes : list str;
  r_evaluation_timestamp : str
}.

(** [None] and [""] are both false in [if not title]; the evaluator makes
    no other use of either argument before replacing it. *)
Definition or_empty (s : option str) : str :=
  match s with Some s => s | None => [] end.

(** The status codes of a client error. *)
Definition client_error (status : Z) : bool :=
  (400 <=? status)%Z && (status <? 500)%Z.

Definition response_of (review : Reviewer.ContentReview) : ContentResponse :=
  {| r_content_id := Reviewer.content_id review;
     r_title := Reviewer.title review;
     r_overall_rating := Reviewer.overall_rating review;
     r_completeness_score := Reviewer.completeness_score review;
     r_placeholder_flags :=
       (Reviewer.has_placeholders (Reviewer.placeholder_flags review),
        Reviewer.details (Reviewer.placeholder_flags review));
     r_key_issues := Reviewer.key_issues review;
     r_suggested_fixes := Reviewer.suggested_fixes review;
     r_evaluation_timestamp := Reviewer.evaluation_timestamp review |}.

Section Handler.

(** [str(e)]: how the installed framework prints an exception. *)
Variable str_of_exn : exn -> str.

(** [reviewer.review_content], the evaluator behind the handler. *)
Variable evaluate : str -> str -> str -> Reviewer.ContentReview.

Definition review_content (request : ContentRequest)
  : result ContentResponse :=
  try_except
    (if negb (truthy (strip (content request)))
     then raise (HTTPException 400 (lit "Content cannot be empty"))
     else
       let review :=
         evaluate (content request) (or_empty (title request))
                  (or_empty (content_id request)) in
       ret (response_of review))
    (fun e =>
       raise (HTTPException 500
                (lit "Error processing content: " ++ str_of_exn e))).

End Handler.

(** The handler as deployed, over the evaluator of [content_reviewer.py]. *)
Definition review_endpoint (str_of_exn : exn -> str) (env : Reviewer.Env)
  : ContentRequest -> result ContentResponse :=
  review_content str_of_exn (Reviewer.review_content env).

End Api.

(* ------------------------------------------------------------------ *)
(** ** The scoring rules as the specification words them

    Section 4.3 of the specification gives the score as seven buckets that
    are computed independently and summed.  They are written here bucket by
    bucket, to be compared with the running total of
    [_calculate_completeness_score].  Each bucket reads the content as the
    specification says: lower-cased in buckets 2 and 6 and in the second
    rule of bucket 5, as it is in buckets 4 and 7 and in the first rule of
    bucket 5. *)

Module Spec.
Import PyStr Reviewer.
Local Open Scope Z_scope.

(** Number of whitespace-delimited tokens of the raw content. *)
Definition word_count (content : str) : nat := List.length (split_ws content).

(** 1. Title (max 10) *)
Definition bucket_title (title : str) : Z :=
  if truthy title
  then (if (5 <? List.length (strip title))%nat then 10 else 5)
  else 0.

(** 2. Overview (max 15) *)
Definition bucket_overview (content : str) : Z :=
  if any_in ["overview"; "introduction"; "summary"]%string (lower content)
  then 15
  else if (50 <? word_count content)%nat then 10 else 0.

(** 3. Body depth (max 30) *)
Definition bucket_body (content : str) : Z :=
  if (500 <? word_count content)%nat then 30
  else if (200 <? word_count content)%nat then 20
  else if (100 <? word_count content)%nat then 10
  else 0.

(** 4. Examples (max 20): "content contains any of ..." *)
Definition bucket_examples (content : str) : Z :=
  if any_in ["example"; "for instance"; "code"; "```"; "sample"]%string
            content
  then 20
  else if contains (lit "step") content || contains (lit "how to") content
  then 10 else 0.

(** 5. References (max 10) *)
Definition bucket_references (content : str) : Z :=
  if contains (lit "http") content || contains (lit "www.") content
     || contains (lit "[") content
  then 10
  else if contains (lit "see also") (lower content)
          || contains (lit "reference") (lower content)
  then 5 else 0.

(** 6. Metadata (max 10) *)
Definition bucket_metadata (content : str) : Z :=
  if any_in ["author"; "date"; "updated"; "version"; "owner"]%string
            (lower content)
  then 10 else 0.

(** 7. Formatting (max 5) *)
Definition bucket_formatting (content : str) : Z :=
  if contains (lit "#") content || contains (lit "*") content
     || contains (lit "-") content
  then 5 else 0.

Definition bucket_sum (content title : str) : Z :=
  bucket_title title + bucket_overview content + bucket_body content
  + bucket_examples content + bucket_references content
  + bucket_metadata content + bucket_formatting content.

(** The sum of the buckets, clamped to at most 100. *)
Definition score (content title : str) : Z :=
  Z.min (bucket_sum content title) 100.

(** The value the classifier compares with its thresholds. *)
Definition adjusted (score : Z) (flags : PlaceholderFlags) : Z :=
  if has_placeholders flags then score - 20 else score.

End Spec.

(* ------------------------------------------------------------------ *)
(** ** The scoring rules with the examples matched in any case

    The rules of section 4.3 with one change: bucket 4 looks for its
    keywords in the lower-cased content, as buckets 2 and 6 do. *)

Module Amended.
Import PyStr Reviewer.
Local Open Scope Z_scope.

(** 4. Examples (max 20), on the lower-cased content *)
Definition bucket_examples (content : str) : Z :=
  if any_in ["example"; "for instance"; "code"; "```"; "sample"]%string
            (lower content)
  then 20
  else if contains (lit "step") (lower content)
          || contains (lit "how to") (lower content)
  then 10 else 0.

Definition bucket_sum (content title : str) : Z :=
  Spec.bucket_title title + Spec.bucket_overview content
  + Spec.bucket_body content + bucket_examples content
  + Spec.bucket_references content + Spec.bucket_metadata content
  + Spec.bucket_formatting content.

(** The sum of the buckets, clamped to at most 100. *)
Definition score (content title : str) : Z :=
  Z.min (bucket_sum content title) 100.

End Amended.

(* ------------------------------------------------------------------ *)
(** ** Vocabulary of the statements and the concrete inputs they use *)

Module Cases.
Import PyStr Re Reviewer.

(** The title the evaluator works with. *)
Definition resolved_title (content title : str) : str :=
  if negb (truthy title) then _extract_title content else title.

(** The fields of a review that depend neither on the clock nor on the
    iteration order of sets. *)
Definition stable_fields (r : ContentReview)
  : Z * str * list str * list str * bool :=
  (completeness_score r, overall_rating r, key_issues r, suggested_fixes r,
   has_placeholders (placeholder_flags r)).

(** The same [set] iterated the same way, the clock read at other times. *)
Definition same_interpreter (env1 env2 : Env) : Env :=
  {| set_iter := set_iter env1; now_id := now_id env2; now_iso := now_iso env2 |}.

(** The messages [_identify_key_issues] can append. *)
Definition possible_issues : list str :=
  [issue_title; issue_brief; issue_examples; issue_metadata;
   issue_references; issue_placeholder].

(** The word [EXAMPLE] in capitals. *)
Definition content_capitals : str := lit "EXAMPLE".

(** The keywords [_generate_suggestions] looks for in an issue. *)
Definition categories : list string :=
  ["title"; "brief"; "example"; "metadata"; "reference"; "placeholder"]%string.

Definition matching_categories (issue : str) : list string :=
  filter (fun k => contains (lit k) (lower issue)) categories.

(** The suggestion given under each keyword. *)
Definition category_fix (k : string) : str :=
  if String.eqb k "title" then fix_title
  else if String.eqb k "brief" then fix_brief
  else if String.eqb k "example" then fix_examples
  else if String.eqb k "metadata" then fix_metadata
  else if String.eqb k "reference" then fix_references
  else fix_placeholder.

(** What an issue adds to the suggestions, read off the keywords: the
    suggestion of the first keyword found in it, nothing without one. *)
Definition fix_by_category (issue : str) : list str :=
  match matching_categories issue with
  | [] => []
  | k :: _ => [category_fix k]
  end.

(** A string of whitespace only. *)
Definition all_space (s : str) : bool := forallb isspace s.

(** What one line does to the loop of [_extract_title]. *)
Definition title_of_line (l : str) : option str :=
  let line := strip l in
  if truthy line && negb (startswith (lit "#") line)
  then Some (firstn 100 line)
  else if startswith (lit "# ") line
  then Some (strip (skipn 2 line))
  else None.

(** [padded lines lines']: the lines of a text and those of the same text
    with whitespace added at its end.  The last line grows by whitespace
    and lines of whitespace follow. *)
Inductive padded : list str -> list str -> Prop :=
| padded_last (l w : str) (more : list str) :
    all_space w = true -> forallb all_space more = true ->
    padded [l] ((l ++ w) :: more)
| padded_cons (l : str) (ls ls' : list str) :
    padded ls ls' -> padded (l :: ls) (l :: ls').

(** A line that the loop of [_extract_title] passes over: blank once
    trimmed, or starting with [#] without being a [# ] heading. *)
Definition passed_over (line : str) : bool :=
  let t := strip line in
  is_nil t || (startswith (lit "#") t && negb (startswith (lit "# ") t)).

(** A line whose trimmed form is empty. *)
Definition blank (line : str) : bool := is_nil (strip line).

(** [text] stands as a whole word between [before] and [after]: neither
    neighbour is a word character. *)
Definition whole_word (before after : str) : bool :=
  negb (is_word_opt (last_opt before None))
  && negb (is_word_opt (hd_error after)).

(** Two iteration orders of a set of strings: first occurrences in list
    order, and the same backwards. *)
Definition first_seen (xs : list str) : list str :=
  nodup (list_eq_dec ascii_dec) xs.
Definition last_seen (xs : list str) : list str := rev (first_seen xs).

Definition env_first_seen : Env :=
  {| set_iter := first_seen;
     now_id := lit "20240101_120000";
     now_iso := lit "2024-01-01T12:00:00" |}.

Definition env_last_seen : Env :=
  {| set_iter := last_seen;
     now_id := lit "20240101_120000";
     now_iso := lit "2024-01-01T12:00:00" |}.

(** Five empty lines, then a line of text. *)
Definition content_blank_then_text : str :=
  [nl; nl; nl; nl; nl] ++ lit "Hello".

(** A first line that starts with [#] but is no [# ] heading. *)
Definition content_hash_tag : str := lit "#tag" ++ [nl] ++ lit "Body".

(** [TBD] after the fraction one quarter (U+00BC), on one long line. *)
Definition content_fraction_tbd : str :=
  ascii_of_nat 188 :: lit "TBD aaaaaaaaaaaaaaaaaaaaaa".

(** [TBD] inside a longer word, on one line of 26 characters. *)
Definition content_tbd_inside_word : str := lit "aTBDa aaaaaaaaaaaaaaaaaaaa".

(** Two distinct placeholders. *)
Definition content_two_placeholders : str := lit "tbd todo".

(** Five lines that start with [#] without being headings, then text. *)
Definition content_hash_lines : str :=
  lit "#a" ++ [nl] ++ lit "#b" ++ [nl] ++ lit "#c" ++ [nl] ++ lit "#d"
  ++ [nl] ++ lit "#e" ++ [nl] ++ lit "Real title".

(** Two blank lines, a line that starts with [#], then text. *)
Definition content_text_third : str :=
  [nl] ++ lit "  " ++ [nl] ++ lit "## Setup" ++ [nl] ++ lit "  Install it  "
  ++ [nl] ++ lit "More".

(** The status with which a request was turned down, if it was. *)
Definition error_status {A : Type} (r : Api.result A) : option Z :=
  match r with
  | inl (Api.HTTPException status _) => Some status
  | inl (Api.Fault _) => None
  | inr _ => None
  end.

(** A request whose content is three spaces. *)
Definition request_spaces : Api.ContentRequest :=
  {| Api.content := lit "   "; Api.title := None; Api.content_id := None |}.

(** A rendering of exceptions for the examples: status code and detail. *)
Definition str_of_exn_example (e : Api.exn) : str :=
  match e with
  | Api.HTTPException status detail =>
      str_of_nat (Z.to_nat status) ++ lit ": " ++ detail
  | Api.Fault message => message
  end.

End Cases.

(* ------------------------------------------------------------------ *)
(** ** [api.py]: the [/batch-review] handler

    The two averages of the summary are binary64 values.  The three
    operations that produce them stay abstract: the quotient of two
    integers, the product with 100 and [round(x, 1)]. *)

Module Batch.
Import PyStr.

Record BatchContentRequest : Type := {
  contents : list Api.ContentRequest
}.

(** [a == b] on strings. *)
Definition str_eqb (a b : str) : bool :=
  if list_eq_dec ascii_dec a b then true else false.

(** [d[k] += 1] on a dictionary of counters: [KeyError] without the key,
    printed by [str] as the key between quotes. *)
Fixpoint dict_incr (k : str) (d : list (str * Z))
  : Api.result (list (str * Z)) :=
  match d with
  | [] => Api.raise (Api.Fault (lit "'" ++ k ++ lit "'"))
  | (k', v) :: d' =>
      if str_eqb k' k then Api.ret ((k', (v + 1)%Z) :: d')
      else match dict_incr k d' with
           | inl e => inl e
           | inr d'' => inr ((k', v) :: d'')
           end
  end.

(** The variables of the loop. *)
Record Acc : Type := {
  acc_results : list Api.ContentResponse;
  acc_ratings_count : list (str * Z);
  acc_total_score : Z;
  acc_placeholder_count : Z
}.

Definition acc_init : Acc :=
  {| acc_results := [];
     acc_ratings_count := [(lit "High", 0%Z); (lit "Medium", 0%Z);
                           (lit "Low", 0%Z)];
     acc_total_score := 0%Z;
     acc_placeholder_count := 0%Z |}.

Section Handler.

(** The type of binary64 numbers and the operations used on it. *)
Variable F : Type.
Variable fdiv : Z -> Z -> F.     (* [a / b] for two integers *)
Variable fmul100 : F -> F.       (* [x * 100] *)
Variable fround1 : F -> F.       (* [round(x, 1)] *)

(** A number of the summary: an [int] or a [float]. *)
Inductive number : Type :=
| Int (z : Z)
| Float (f : F).

(** [round(x, 1)]: an [int] is returned as it is. *)
Definition round1 (x : number) : number :=
  match x with
  | Int z => Int z
  | Float f => Float (fround1 f)
  end.

Record Summary : Type := {
  total_items : Z;
  average_score : number;
  ratings_distribution : list (str * Z);
  items_with_placeholders : Z;
  placeholder_percentage : number
}.

Record BatchContentResponse : Type := {
  results : list Api.ContentResponse;
  summary : Summary
}.

(** [str(e)]: how the installed framework prints an exception. *)
Variable str_of_exn : Api.exn -> str.

(** [reviewer.review_content]; the first argument numbers the calls made
    while one request is served, each of which reads the clock anew. *)
Variable evaluate : nat -> str -> str -> str -> Reviewer.ContentReview.

(** The [for] loop over [request.contents]. *)
Fixpoint batch_loop (contents : list Api.ContentRequest) (acc : Acc)
  : Api.result Acc :=
  match contents with
  | [] => Api.ret acc
  | content_req :: rest =>
      if negb (truthy (strip (Api.content content_req)))
      then batch_loop rest acc
      else
        let review :=
          evaluate (List.length (acc_results acc))
                   (Api.content content_req)
                   (Api.or_empty (Api.title content_req))
                   (Api.or_empty (Api.content_id content_req)) in
        let result := Api.response_of review in
        let results := acc_results acc ++ [result] in
        match dict_incr (Reviewer.overall_rating review)
                        (acc_ratings_count acc) with
        | inl e => inl e
        | inr ratings_count =>
            let total_score :=
              (acc_total_score acc + Reviewer.completeness_score review)%Z in
            let placeholder_count :=
              if Reviewer.has_placeholders (Reviewer.placeholder_flags review)
              then (acc_placeholder_count acc + 1)%Z
              else acc_placeholder_count acc in
            batch_loop rest
              {| acc_results := results;
                 acc_ratings_count := ratings_count;
                 acc_total_score := total_score;
                 acc_placeholder_count := placeholder_count |}
        end
  end.

(** The summary statistics computed after the loop. *)
Definition summary_of (acc : Acc) : Summary :=
  let total_items := Z.of_nat (List.length (acc_results acc)) in
  let avg_score :=
    if (0 <? total_items)%Z
    then Float (fdiv (acc_total_score acc) total_items)
    else Int 0 in
  {| total_items := total_items;
     average_score := round1 avg_score;
     ratings_distribution := acc_ratings_count acc;
     items_with_placeholders := acc_placeholder_count acc;
     placeholder_percentage :=
       if (0 <? total_items)%Z
       then round1 (Float (fmul100
                             (fdiv (acc_placeholder_count acc) total_items)))
       else Int 0 |}.

Definition batch_review_content (request : BatchContentRequest)
  : Api.result BatchContentResponse :=
  Api.try_except
    (if negb (truthy (contents request))
     then Api.raise (Api.HTTPException 400 (lit "No content provided"))
     else
       match batch_loop (contents request) acc_init with
       | inl e => inl e
       | inr acc =>
           Api.ret {| results := acc_results acc; summary := summary_of acc |}
       end)
    (fun e =>
       Api.raise (Api.HTTPException 500
                    (lit "Error processing batch content: " ++ str_of_exn e))).

End Handler.

Arguments Int {F} z.
Arguments Float {F} f.
Arguments total_items {F} s.
Arguments average_score {F} s.
Arguments ratings_distribution {F} s.
Arguments items_with_placeholders {F} s.
Arguments placeholder_percentage {F} s.
Arguments results {F} b.
Arguments summary {F} b.

(** The handler as deployed: the [k]-th call of the evaluator runs in the
    environment [envs k]. *)
Definition batch_endpoint (F : Type) (fdiv : Z -> Z -> F)
           (fmul100 fround1 : F -> F) (str_of_exn : Api.exn -> str)
           (envs : nat -> Reviewer.Env)
  : BatchContentRequest -> Api.result (BatchContentResponse F) :=
  batch_review_content F fdiv fmul100 fround1 str_of_exn
    (fun k => Reviewer.review_content (envs k)).

End Batch.

(* ------------------------------------------------------------------ *)
(** ** Further vocabulary *)

Module Terms.
Import PyStr Re Reviewer Cases.

(** The tiers in rising order. *)
Definition rank (r : QualityRating) : nat :=
  match r with LOW => 0 | MEDIUM => 1 | HIGH => 2 end.

(** [subseq l l']: [l] is [l'] with some elements left out. *)
Inductive subseq {A : Type} : list A -> list A -> Prop :=
| subseq_nil : subseq [] []
| subseq_skip (x : A) (l l' : list A) : subseq l l' -> subseq l (x :: l')
| subseq_take (x : A) (l l' : list A) :
    subseq l l' -> subseq (x :: l) (x :: l').

(** The suggestion meant for each issue. *)
Definition issue_fixes : list (str * str) :=
  [(issue_title, fix_title); (issue_brief, fix_brief);
   (issue_examples, fix_examples); (issue_metadata, fix_metadata);
   (issue_references, fix_references); (issue_placeholder, fix_placeholder)].

Definition paired_fix (issue : str) : list str :=
  match find (fun p => Batch.str_eqb (fst p) issue) issue_fixes with
  | Some p => [snd p]
  | None => []
  end.

(** The suggestions [_generate_suggestions] can give. *)
Definition possible_fixes : list str :=
  [fix_title; fix_brief; fix_examples; fix_metadata; fix_references;
   fix_placeholder; fix_general].

(** The matches [_detect_placeholders] collects, in pattern order. *)
Definition found_placeholders (content : str) : list str :=
  flat_map (fun pattern => findall pattern (lower content))
           placeholder_patterns.

(** The lines [_detect_placeholders] counts as short. *)
Definition short_sections (content : str) : list str :=
  filter is_short (split_on nl content).

(** The conditions of the first five checks of [_identify_key_issues]. *)
Definition title_inadequate (title : str) : bool :=
  negb (truthy title) || (List.length (strip title) <? 5).
Definition too_brief (content : str) : bool :=
  Spec.word_count content <? 100.
Definition lacks_examples (content : str) : bool :=
  negb (any_in ["example"; "code"; "```"]%string (lower content)).
Definition lacks_metadata (content : str) : bool :=
  negb (any_in ["author"; "date"; "updated"; "owner"]%string (lower content)).
Definition lacks_references (content : str) : bool :=
  negb (contains (lit "http") content)
  && negb (contains (lit "reference") (lower content)).

(** The six checks of [_identify_key_issues] as one selection from the
    six messages, cut to 5. *)
Definition selected (b1 b2 b3 b4 b5 b6 : bool) : list str :=
  firstn 5
    (append_if b6 issue_placeholder
       (append_if b5 issue_references
          (append_if b4 issue_metadata
             (append_if b3 issue_examples
                (append_if b2 issue_brief
                   (append_if b1 issue_title [])))))).

(** [n * 0.3] for an integer given as a [Z]. *)
Definition mul_0_3_Z (n : Z) : Z * Z :=
  let p := (n * PyFloat.m03)%Z in
  let bits := if (p =? 0)%Z then 0%Z else (Z.log2 p + 1)%Z in
  if (bits <=? 53)%Z then (p, (-54)%Z)
  else
    let sh := (bits - 53)%Z in
    let q := Z.shiftr p sh in
    let rem := (p - Z.shiftl q sh)%Z in
    let half := Z.shiftl 1 (sh - 1) in
    let q' := if (half <? rem)%Z || ((rem =? half)%Z && Z.odd q)
              then (q + 1)%Z else q in
    (q', (sh - 54)%Z).

(** The responses a batch gives, call by call. *)
Fixpoint batch_responses (envs : nat -> Env) (k : nat)
         (contents : list Api.ContentRequest) : list Api.ContentResponse :=
  match contents with
  | [] => []
  | req :: rest =>
      if truthy (strip (Api.content req))
      then Api.response_of
             (review_content (envs k) (Api.content req)
                             (Api.or_empty (Api.title req))
                             (Api.or_empty (Api.content_id req)))
           :: batch_responses envs (S k) rest
      else batch_responses envs k rest
  end.

(** How many responses carry the rating [name]. *)
Definition count_rating (name : str) (rs : list Api.ContentResponse) : Z :=
  Z.of_nat (List.length
              (filter (fun r => Batch.str_eqb (Api.r_overall_rating r) name)
                      rs)).

(** How many responses are flagged for placeholders. *)
Definition count_flagged (rs : list Api.ContentResponse) : Z :=
  Z.of_nat (List.length
              (filter (fun r => fst (Api.r_placeholder_flags r)) rs)).

(** The sum of the scores of the responses. *)
Definition sum_scores (rs : list Api.ContentResponse) : Z :=
  fold_right Z.add 0%Z (map Api.r_completeness_score rs).

(** The counters of the three ratings after the responses [rs], counted
    on from [h], [m] and [l]. *)
Definition tally (rs : list Api.ContentResponse) (h m l : Z)
  : list (str * Z) :=
  [(lit "High", (h + count_rating (lit "High") rs)%Z);
   (lit "Medium", (m + count_rating (lit "Medium") rs)%Z);
   (lit "Low", (l + count_rating (lit "Low") rs)%Z)].

(** The statistics of the responses [rs]. *)
Definition summary_for (F : Type) (fdiv : Z -> Z -> F)
           (fmul100 fround1 : F -> F) (rs : list Api.ContentResponse)
  : Batch.Summary F :=
  let n := Z.of_nat (List.length rs) in
  {| Batch.total_items := n;
     Batch.average_score :=
       if (0 <? n)%Z
       then Batch.Float (fround1 (fdiv (sum_scores rs) n))
       else Batch.Int 0;
     Batch.ratings_distribution := tally rs 0 0 0;
     Batch.items_with_placeholders := count_flagged rs;
     Batch.placeholder_percentage :=
       if (0 <? n)%Z
       then Batch.Float (fround1 (fmul100 (fdiv (count_flagged rs) n)))
       else Batch.Int 0 |}.

(** A request whose content is not blank. *)
Definition has_content (req : Api.ContentRequest) : bool :=
  truthy (strip (Api.content req)).

(** A stand-in for binary64 in the examples: a quotient kept as the pair
    of its terms, left as it is by rounding. *)
Definition ratio : Type := (Z * Z)%type.
Definition ratio_div (a b : Z) : ratio := (a, b).
Definition ratio_mul100 (x : ratio) : ratio := ((fst x * 100)%Z, snd x).
Definition ratio_round1 (x : ratio) : ratio := x.

(** Every call in the environment of the examples. *)
Definition example_envs (k : nat) : Env := env_first_seen.

(** A batch of three items, the second of them blank. *)
Definition example_batch : Batch.BatchContentRequest :=
  {| Batch.contents :=
       [ {| Api.content := lit "tbd"; Api.title := None;
            Api.content_id := Some (lit "a") |};
         {| Api.content := lit "   "; Api.title := None;
            Api.content_id := Some (lit "b") |};
         {| Api.content := lit "overview example http author";
            Api.title := Some (lit "A title"); Api.content_id := None |} ] |}.

(** A batch of two blank items. *)
Definition blank_batch : Batch.BatchContentRequest :=
  {| Batch.contents :=
       [ {| Api.content := []; Api.title := None; Api.content_id := None |};
         {| Api.content := lit "  "; Api.title := None;
            Api.content_id := None |} ] |}.

(** A content of 505 words that meets every scoring criterion. *)
Definition content_complete : str :=
  List.concat (repeat (lit "overview example http author # ") 101).

End Terms.

(* ------------------------------------------------------------------ *)
(** * Properties *)

Import PyStr Re Reviewer Cases.

(** ** Scoring (section 4.3) *)

Section Scoring.
Local Open Scope Z_scope.

Lemma add_if1 (b : bool) (x a : Z) :
  (if b then x + a else x) = x + (if b then a else 0).
Proof. destruct b; lia. Qed.

Lemma add_if2 (b c : bool) (x a1 a2 : Z) :
  (if b then x + a1 else if c then x + a2 else x)
  = x + (if b then a1 else if c then a2 else 0).
Proof. destruct b, c; lia. Qed.

Lemma add_if3 (b c d : bool) (x a1 a2 a3 : Z) :
  (if b then x + a1 else if c then x + a2 else if d then x + a3 else x)
  = x + (if b then a1 else if c then a2 else if d then a3 else 0).
Proof. destruct b, c, d; lia. Qed.

(** The running total of the source is the sum of the buckets. *)
Lemma running_total (content title : str) :
  _calculate_completeness_score content title = Amended.score content title.
Proof.
  unfold _calculate_completeness_score, Amended.score, Amended.bucket_sum.
  cbv zeta.
  rewrite add_if1, add_if1, add_if2, add_if2, add_if3, add_if2, add_if2.
  unfold Spec.bucket_title, Spec.bucket_overview, Spec.bucket_body,
    Amended.bucket_examples, Spec.bucket_references, Spec.bucket_metadata,
    Spec.bucket_formatting, Spec.word_count.
  f_equal.
  destruct (truthy title); simpl; lia.
Qed.

Lemma bucket_title_range (title : str) : 0 <= Spec.bucket_title title <= 10.
Proof.
  unfold Spec.bucket_title.
  destruct (truthy title); [destruct (_ <? _)%nat|]; lia.
Qed.

Lemma bucket_overview_range (content : str) :
  0 <= Spec.bucket_overview content <= 15.
Proof.
  unfold Spec.bucket_overview.
  destruct (any_in _ _); [|destruct (_ <? _)%nat]; lia.
Qed.

Lemma bucket_body_range (content : str) : 0 <= Spec.bucket_body content <= 30.
Proof.
  unfold Spec.bucket_body.
  repeat (destruct (_ <? _)%nat; [lia|]); lia.
Qed.

Lemma bucket_examples_range (content : str) :
  0 <= Amended.bucket_examples content <= 20.
Proof.
  unfold Amended.bucket_examples.
  destruct (any_in _ _); [|destruct (_ || _)]; lia.
Qed.

Lemma bucket_references_range (content : str) :
  0 <= Spec.bucket_references content <= 10.
Proof.
  unfold Spec.bucket_references.
  destruct (_ || _ || _); [|destruct (_ || _)]; lia.
Qed.

Lemma bucket_metadata_range (content : str) :
  0 <= Spec.bucket_metadata content <= 10.
Proof. unfold Spec.bucket_metadata. destruct (any_in _ _); lia. Qed.

Lemma bucket_formatting_range (content : str) :
  0 <= Spec.bucket_formatting content <= 5.
Proof. unfold Spec.bucket_formatting. destruct (_ || _ || _); lia. Qed.

(** C1, as stated, fails: bucket 4 of section 4.3 looks for its keywords
    in the content as it is, the scorer looks for them in the lower-cased
    content.  The word [EXAMPLE] in capitals earns the 20 points of the
    examples in the code and none by the rule as worded. *)
Lemma capitals_count_as_examples :
  _calculate_completeness_score content_capitals [] = 20
  /\ Spec.score content_capitals [] = 0
  /\ _calculate_completeness_score content_capitals []
     <> Spec.score content_capitals [].
Proof.
  split; [vm_compute; reflexivity|]. split; [vm_compute; reflexivity|].
  vm_compute. discriminate.
Qed.

(** On a content without capitals the rules as worded give the score. *)
Lemma score_as_worded_without_capitals (content title : str) :
  lower content = content ->
  _calculate_completeness_score content title = Spec.score content title.
Proof.
  intros H. rewrite running_total.
  unfold Amended.score, Amended.bucket_sum, Amended.bucket_examples,
    Spec.score, Spec.bucket_sum, Spec.bucket_examples.
  now rewrite H.
Qed.

(** C1, amended.  For every content and title, the completeness score is
    the sum of the seven buckets of section 4.3 (title at most 10,
    overview at most 15, body depth at most 30, examples at most 20,
    references at most 10, metadata at most 10, formatting at most 5),
    with the keywords of bucket 4 looked for in the lower-cased content,
    clamped to at most 100, and so lies between 0 and 100. *)
Theorem completeness_score_is_clamped_bucket_sum (content title : str) :
  _calculate_completeness_score content title
  = Z.min (Spec.bucket_title title + Spec.bucket_overview content
           + Spec.bucket_body content + Amended.bucket_examples content
           + Spec.bucket_references content + Spec.bucket_metadata content
           + Spec.bucket_formatting content) 100
  /\ 0 <= Spec.bucket_title title <= 10
  /\ 0 <= Spec.bucket_overview content <= 15
  /\ 0 <= Spec.bucket_body content <= 30
  /\ 0 <= Amended.bucket_examples content <= 20
  /\ 0 <= Spec.bucket_references content <= 10
  /\ 0 <= Spec.bucket_metadata content <= 10
  /\ 0 <= Spec.bucket_formatting content <= 5
  /\ 0 <= _calculate_completeness_score content title <= 100.
Proof.
  pose proof (bucket_title_range title).
  pose proof (bucket_overview_range content).
  pose proof (bucket_body_range content).
  pose proof (bucket_examples_range content).
  pose proof (bucket_references_range content).
  pose proof (bucket_metadata_range content).
  pose proof (bucket_formatting_range content).
  rewrite running_total. unfold Amended.score, Amended.bucket_sum.
  repeat split; try lia.
Qed.

(** The points of [quality_indicators] add up to 100. *)
Lemma quality_indicators_total :
  fold_right Z.add 0 (map snd quality_indicators) = 100.
Proof. reflexivity. Qed.

(** The buckets never add up to more than 100: the clamp is a safety net. *)
Lemma bucket_sum_at_most_100 (content title : str) :
  Amended.bucket_sum content title <= 100.
Proof.
  pose proof (bucket_title_range title).
  pose proof (bucket_overview_range content).
  pose proof (bucket_body_range content).
  pose proof (bucket_examples_range content).
  pose proof (bucket_references_range content).
  pose proof (bucket_metadata_range content).
  pose proof (bucket_formatting_range content).
  unfold Amended.bucket_sum. lia.
Qed.

(** ** Rating (section 4.4) *)

(** The classifier as one comparison chain on the adjusted score. *)
Lemma rating_by_adjusted (score : Z) (flags : PlaceholderFlags) :
  _determine_overall_rating score flags
  = (if 80 <=? Spec.adjusted score flags then HIGH
     else if 50 <=? Spec.adjusted score flags then MEDIUM else LOW).
Proof.
  unfold _determine_overall_rating, Spec.adjusted.
  rewrite !Z.geb_leb. reflexivity.
Qed.

(** C2.  The classifier subtracts 20 from the score when the placeholder
    flag is set, compares only that adjusted value with the thresholds, and
    answers High from 80, Medium from 50 and Low below; without
    placeholders 80 is High, 79 and 50 are Medium and 49 is Low. *)
Theorem rating_follows_adjusted_score (score : Z) (flags : PlaceholderFlags) :
  let adjusted := if has_placeholders flags then score - 20 else score in
  _determine_overall_rating score flags
  = (if 80 <=? adjusted then HIGH else if 50 <=? adjusted then MEDIUM else LOW)
  /\ (_determine_overall_rating score flags = HIGH <-> 80 <= adjusted)
  /\ (_determine_overall_rating score flags = MEDIUM <-> 50 <= adjusted < 80)
  /\ (_determine_overall_rating score flags = LOW <-> adjusted < 50)
  /\ (has_placeholders flags = false ->
      (score = 80 -> _determine_overall_rating score flags = HIGH)
      /\ (score = 79 -> _determine_overall_rating score flags = MEDIUM)
      /\ (score = 50 -> _determine_overall_rating score flags = MEDIUM)
      /\ (score = 49 -> _determine_overall_rating score flags = LOW)).
Proof.
  unfold _determine_overall_rating.
  destruct (has_placeholders flags); cbv zeta;
    rewrite !Z.geb_leb;
    repeat match goal with
           | |- context [?a <=? ?b] => destruct (Z.leb_spec a b)
           end;
    repeat split; intros; subst; try discriminate; try lia; try reflexivity.
Qed.

End Scoring.

(** ** The review record (sections 3 and 4.5, 4.6) *)

Section Review.

(** C5.  The [completeness_score] stored in the review is the scorer's
    output unchanged, whatever the placeholder flag is; the penalty of 20
    enters only the comparison that yields [overall_rating]. *)
Theorem stored_score_is_unpenalised (env : Env) (content title id : str) :
  let review := review_content env content title id in
  let scored :=
    _calculate_completeness_score content (resolved_title content title) in
  completeness_score review = scored
  /\ overall_rating review
     = value (if (80 <=? Spec.adjusted scored (placeholder_flags review))%Z
              then HIGH
              else if (50 <=? Spec.adjusted scored (placeholder_flags review))%Z
                   then MEDIUM else LOW)
  /\ placeholder_flags review = _detect_placeholders env content.
Proof.
  cbv zeta. unfold review_content, resolved_title. cbn [completeness_score
    overall_rating placeholder_flags].
  split; [reflexivity|]. split; [|reflexivity].
  f_equal. apply rating_by_adjusted.
Qed.

(** A flagged content whose stored score stays at 65, a Medium score,
    while the rating, taken at 45, is Low. *)
Example stored_score_example :
  let content :=
    lit "overview example http author tbd" in
  let review := review_content env_first_seen content (lit "A title") [] in
  has_placeholders (placeholder_flags review) = true
  /\ completeness_score review = 65%Z
  /\ overall_rating review = lit "Low".
Proof. vm_compute. repeat split. Qed.

Lemma append_if_length (b : bool) (msg : str) (l : list str) :
  List.length (append_if b msg l)
  = List.length l + (if b then 1 else 0).
Proof.
  unfold append_if. destruct b; [rewrite length_app; simpl|]; lia.
Qed.

Lemma append_if_Forall (P : str -> Prop) (b : bool) (msg : str)
      (l : list str) :
  P msg -> Forall P l -> Forall P (append_if b msg l).
Proof.
  intros Hm Hl. unfold append_if. destruct b; [|assumption].
  apply Forall_app. split; [assumption|]. constructor; [assumption|constructor].
Qed.

Lemma Forall_firstn {A : Type} (P : A -> Prop) (n : nat) (l : list A) :
  Forall P l -> Forall P (firstn n l).
Proof.
  intros H. revert n. induction H; intros [|n]; simpl; constructor; auto.
Qed.

(** C8.  Whatever the content, title and id, [key_issues] and
    [suggested_fixes] of the review hold at most 5 elements each. *)
Theorem issues_and_fixes_at_most_five (env : Env) (content title id : str) :
  List.length (key_issues (review_content env content title id)) <= 5
  /\ List.length (suggested_fixes (review_content env content title id)) <= 5.
Proof.
  unfold review_content. cbn [key_issues suggested_fixes].
  unfold _identify_key_issues, _generate_suggestions.
  split; apply firstn_le_length.
Qed.

(** Every issue reported is one of the six fixed messages. *)
Lemma issues_are_possible (content title : str) (score : Z) :
  Forall (fun i => In i possible_issues)
         (_identify_key_issues content title score).
Proof.
  unfold _identify_key_issues. cbv zeta.
  apply Forall_firstn.
  repeat (apply append_if_Forall;
          [unfold possible_issues; simpl; tauto|]).
  constructor.
Qed.

(** The chain of tests of [_generate_suggestions] looks for the first of
    the six keywords, in the order of the list, and gives its suggestion. *)
Lemma suggestion_by_category (issue : str) :
  suggestion_for issue = fix_by_category issue.
Proof.
  unfold suggestion_for, fix_by_category, matching_categories, categories.
  cbv zeta. cbn [filter].
  repeat match goal with
         | |- context [if contains ?k (lower issue) then _ else _] =>
             destruct (contains k (lower issue)); [reflexivity|]
         end.
  reflexivity.
Qed.

(** Each of the six messages falls under exactly one keyword and yields
    the suggestion of that keyword, which is the one meant for it. *)
Lemma possible_issue_one_category (i : str) :
  In i possible_issues ->
  exists k, matching_categories i = [k]
            /\ suggestion_for i = [category_fix k]
            /\ suggestion_for i = Terms.paired_fix i.
Proof.
  unfold possible_issues. simpl.
  intros [<-|[<-|[<-|[<-|[<-|[<-|[]]]]]]];
    [exists "title"%string|exists "brief"%string|exists "example"%string
    |exists "metadata"%string|exists "reference"%string
    |exists "placeholder"%string];
    vm_compute; repeat split; reflexivity.
Qed.

Lemma flat_map_length_one {A B : Type} (f : A -> list B) (l : list A) :
  Forall (fun x => List.length (f x) = 1) l ->
  List.length (flat_map f l) = List.length l.
Proof.
  induction 1 as [|x l Hx _ IH]; simpl; [reflexivity|].
  rewrite length_app, Hx, IH. reflexivity.
Qed.

Lemma flat_map_agree {A B : Type} (f g : A -> list B) (l : list A) :
  Forall (fun x => f x = g x) l -> flat_map f l = flat_map g l.
Proof.
  induction 1 as [|x l Hx _ IH]; [reflexivity|].
  cbn [flat_map]. now rewrite Hx, IH.
Qed.

(** C10.  Every issue the Issue Identifier emits falls under exactly one
    of the Suggestion Generator's keywords (title, brief, example,
    metadata, reference, placeholder), the generator gives for an issue
    the suggestion of the first keyword found in it, and so each issue
    contributes exactly one fixed suggestion, the one meant for it; hence
    the suggestions are those of the issues in order, plus the general
    one when the content has fewer than 200 words, cut to 5, and their
    number is the number of issues, plus one in that case, capped at 5. *)
Theorem suggestions_count (content title : str) (score : Z) :
  let issues := _identify_key_issues content title score in
  (forall issue : str, suggestion_for issue = fix_by_category issue)
  /\ Forall (fun i => In i possible_issues
                      /\ exists k, matching_categories i = [k]
                                   /\ suggestion_for i = [category_fix k]
                                   /\ suggestion_for i = Terms.paired_fix i)
            issues
  /\ _generate_suggestions issues content
     = firstn 5 (flat_map Terms.paired_fix issues
                 ++ (if Spec.word_count content <? 200 then [fix_general]
                     else []))
  /\ List.length (_generate_suggestions issues content)
     = Nat.min (List.length issues
                + (if Spec.word_count content <? 200 then 1 else 0)) 5.
Proof.
  cbv zeta.
  pose proof (issues_are_possible content title score) as Hin.
  assert (Hone : Forall (fun i => suggestion_for i = Terms.paired_fix i
                                  /\ List.length (suggestion_for i) = 1)
                        (_identify_key_issues content title score)).
  { eapply Forall_impl; [|exact Hin]. intros i Hi.
    destruct (possible_issue_one_category i Hi) as (k & _ & Hk & Hp).
    split; [exact Hp|]. now rewrite Hk. }
  split; [exact suggestion_by_category|].
  split.
  { eapply Forall_impl; [|exact Hin]. intros i Hi.
    split; [assumption|]. now apply possible_issue_one_category. }
  unfold _generate_suggestions, append_if, Spec.word_count. cbv zeta.
  split.
  - rewrite (flat_map_agree suggestion_for Terms.paired_fix).
    + now destruct (_ <? 200); rewrite ?app_nil_r.
    + eapply Forall_impl; [|exact Hone]. now intros i [H _].
  - rewrite length_firstn.
    assert (Hlen : List.length
                     (flat_map suggestion_for
                        (_identify_key_issues content title score))
                   = List.length (_identify_key_issues content title score)).
    { apply flat_map_length_one.
      eapply Forall_impl; [|exact Hone]. now intros i [_ H]. }
    destruct (_ <? 200); [rewrite length_app|]; rewrite Hlen;
      cbn [List.length]; rewrite ?Nat.add_0_r; apply Nat.min_comm.
Qed.

Lemma first_seen_order : set_order first_seen.
Proof.
  intros xs. split; [apply NoDup_nodup|].
  intros x. apply nodup_In.
Qed.

Lemma last_seen_order : set_order last_seen.
Proof.
  intros xs. unfold last_seen. split.
  - apply NoDup_rev, first_seen_order.
  - intros x. rewrite <- in_rev. apply first_seen_order.
Qed.

(** C9, as stated, fails: two evaluations of the same content, title and
    id, under two iteration orders of the same set of placeholders, give
    two [details] strings. *)
Lemma details_depend_on_set_order :
  set_order (set_iter env_first_seen)
  /\ set_order (set_iter env_last_seen)
  /\ details (placeholder_flags
                (review_content env_first_seen content_two_placeholders
                                (lit "T") (lit "1")))
     = lit "Found placeholders: tbd, todo"
  /\ details (placeholder_flags
                (review_content env_last_seen content_two_placeholders
                                (lit "T") (lit "1")))
     = lit "Found placeholders: todo, tbd"
  /\ placeholder_flags
       (review_content env_first_seen content_two_placeholders
                       (lit "T") (lit "1"))
     <> placeholder_flags
          (review_content env_last_seen content_two_placeholders
                          (lit "T") (lit "1")).
Proof.
  split; [exact first_seen_order|]. split; [exact last_seen_order|].
  split; [vm_compute; reflexivity|]. split; [vm_compute; reflexivity|].
  vm_compute. intros H. discriminate H.
Qed.

(** C9, amended.  Two evaluations of the same content, title and id give
    the same [completeness_score], [overall_rating], [key_issues],
    [suggested_fixes] and [has_placeholders], whatever the clock and the
    iteration order of sets; when both run under the same iteration order
    (one interpreter process) the whole [placeholder_flags], [details]
    included, and the title are the same too, and only the timestamp and a
    generated id can differ. *)
Theorem evaluation_is_repeatable (env1 env2 : Env) (content title id : str) :
  stable_fields (review_content env1 content title id)
  = stable_fields (review_content env2 content title id)
  /\ placeholder_flags (review_content env1 content title id)
     = placeholder_flags
         (review_content (same_interpreter env1 env2) content title id)
  /\ Reviewer.title (review_content env1 content title id)
     = Reviewer.title (review_content env2 content title id)
  /\ (truthy id = true ->
      content_id (review_content env1 content title id)
      = content_id (review_content env2 content title id)).
Proof.
  repeat split.
  unfold review_content. cbn [content_id]. intros ->. reflexivity.
Qed.

End Review.

(** ** Placeholder detection (section 4.2) *)

Section Placeholders.

Lemma is_word_lower_char (c : ascii) : is_word (lower_char c) = is_word c.
Proof.
  destruct c as [[|] [|] [|] [|] [|] [|] [|] [|]]; vm_compute; reflexivity.
Qed.

Lemma is_word_opt_lower (d : option ascii) :
  is_word_opt (option_map lower_char d) = is_word_opt d.
Proof. destruct d; simpl; [apply is_word_lower_char|reflexivity]. Qed.

Lemma last_opt_lower (a : str) (d : option ascii) :
  last_opt (lower a) (option_map lower_char d)
  = option_map lower_char (last_opt a d).
Proof.
  revert d. induction a as [|c a IH]; intros d; [reflexivity|].
  simpl. apply (IH (Some c)).
Qed.

Lemma hd_error_lower (s : str) :
  hd_error (lower s) = option_map lower_char (hd_error s).
Proof. destruct s; reflexivity. Qed.

Lemma atom_ok_self (c : ascii) : atom_ok (ALit c) c = true.
Proof. simpl. apply Ascii.eqb_refl. Qed.

(** A literal word matches itself, in one way. *)
Lemma rmatch_word_self (s : str) :
  forall (prev : option ascii) (rest : str),
    rmatch (word s) prev (s ++ rest) = [(s, rest)].
Proof.
  induction s as [|c s IH]; intros prev rest; [reflexivity|].
  cbn [word rmatch app]. rewrite atom_ok_self.
  cbn [flat_map fst snd]. rewrite IH. reflexivity.
Qed.

(** The preferred match of a sequence, from those of its parts. *)
Lemma rmatch_Seq_first (r1 r2 : regex) (prev : option ascii) (s : str)
      (m1 m2 : str * str) :
  hd_error (rmatch r1 prev s) = Some m1 ->
  hd_error (rmatch r2 (last_opt (fst m1) prev) (snd m1)) = Some m2 ->
  hd_error (rmatch (Seq r1 r2) prev s) = Some (fst m1 ++ fst m2, snd m2).
Proof.
  intros H1 H2. cbn [rmatch]. unfold str in *.
  destruct (rmatch r1 prev s) as [|x l1]; [discriminate|].
  injection H1 as ->. cbn [flat_map].
  destruct (rmatch r2 (last_opt (fst m1) prev) (snd m1)) as [|y l2];
    [discriminate|].
  injection H2 as ->. reflexivity.
Qed.

Lemma rmatch_alts_first (r : regex) (rs : list regex) (prev : option ascii)
      (s : str) (m : str * str) :
  hd_error (rmatch r prev s) = Some m ->
  hd_error (rmatch (alts r rs) prev s) = Some m.
Proof.
  intros H. destruct rs as [|r' rs]; [exact H|].
  cbn [alts rmatch].
  destruct (rmatch r prev s); [discriminate|exact H].
Qed.

Lemma match_at_hd (r : regex) (prev : option ascii) (s : str)
      (m : str * str) :
  hd_error (rmatch r prev s) = Some m -> match_at r prev s = Some (fst m).
Proof.
  unfold match_at. destruct (rmatch r prev s); [discriminate|].
  intros [= ->]. reflexivity.
Qed.

(** Between two non-word neighbours the keyword pattern matches [tbd]. *)
Lemma keywords_match_tbd (prev : option ascii) (rest : str) :
  is_word_opt prev = false ->
  is_word_opt (hd_error rest) = false ->
  match_at pattern_keywords prev (lit "tbd" ++ rest) = Some (lit "tbd").
Proof.
  intros Hp Hr.
  apply (match_at_hd _ _ _ (lit "tbd", rest)).
  unfold pattern_keywords.
  apply (rmatch_Seq_first _ _ _ _ ([], lit "tbd" ++ rest) (lit "tbd", rest)).
  - cbn [rmatch]. unfold at_boundary. rewrite Hp. reflexivity.
  - cbn [fst snd last_opt fold_left].
    apply (rmatch_Seq_first _ _ _ _ (lit "tbd", rest) ([], rest)).
    + apply rmatch_alts_first. unfold w. rewrite rmatch_word_self. reflexivity.
    + cbn [rmatch fst snd]. unfold at_boundary. rewrite Hr. reflexivity.
Qed.

(** A match somewhere in the text puts something in [findall]'s list. *)
Lemma findall_from_finds (r : regex) (a : str) :
  forall (prev : option ascii) (b m : str),
    match_at r (last_opt a prev) b = Some m ->
    findall_from r prev (a ++ b) 0 <> [].
Proof.
  induction a as [|c a IH]; intros prev b m Hm; simpl in *.
  - destruct b; simpl; rewrite Hm; discriminate.
  - destruct (match_at r prev (c :: a ++ b)); [discriminate|].
    apply (IH (Some c) b m Hm).
Qed.

(** C6, as stated, fails: a content that contains [TBD] inside a longer
    word, on one long line, is not flagged. *)
Lemma tbd_inside_word_not_flagged :
  contains (lit "TBD") content_tbd_inside_word = true
  /\ has_placeholders
       (_detect_placeholders env_first_seen content_tbd_inside_word)
     = false.
Proof. split; vm_compute; reflexivity. Qed.

(** A fraction sign is a word character too: [TBD] right after one is not
    flagged. *)
Example tbd_after_fraction_not_flagged :
  is_word (ascii_of_nat 188) = true
  /\ has_placeholders
       (_detect_placeholders env_first_seen content_fraction_tbd)
     = false.
Proof. split; vm_compute; reflexivity. Qed.

(** C6, amended.  For every content that contains [TBD] as a whole word,
    that is with no word character directly before or after it, the
    placeholder detector returns [has_placeholders = true].  A word
    character is what [\w] of [re] matches: a letter, a digit, any other
    alphanumeric character (such as the superscript 2 or the fraction one
    quarter) or the underscore. *)
Theorem whole_word_tbd_is_flagged (env : Env) (before after : str) :
  whole_word before after = true ->
  has_placeholders (_detect_placeholders env (before ++ lit "TBD" ++ after))
  = true.
Proof.
  unfold whole_word. rewrite andb_true_iff, !negb_true_iff.
  intros [Hb Ha].
  unfold _detect_placeholders. cbn [has_placeholders].
  apply orb_true_iff. left.
  unfold placeholder_patterns. cbn [flat_map].
  assert (Hf : findall pattern_keywords (lower (before ++ lit "TBD" ++ after))
               <> []).
  { unfold lower. rewrite !map_app. fold (lower before). fold (lower after).
    change (map lower_char (lit "TBD")) with (lit "tbd").
    unfold findall.
    apply (findall_from_finds _ _ _ _ (lit "tbd")).
    apply keywords_match_tbd.
    - change (@None ascii) with (option_map lower_char None).
      rewrite last_opt_lower, is_word_opt_lower. exact Hb.
    - rewrite hd_error_lower, is_word_opt_lower. exact Ha. }
  destruct (findall pattern_keywords _); [contradiction|reflexivity].
Qed.

(** The amended C6 at [Status: TBD.]. *)
Lemma whole_word_tbd_is_flagged_witness :
  has_placeholders
    (_detect_placeholders env_first_seen
                          (lit "Status: " ++ lit "TBD" ++ lit "."))
  = true.
Proof.
  apply (whole_word_tbd_is_flagged env_first_seen (lit "Status: ") (lit ".")).
  vm_compute. reflexivity.
Defined.

End Placeholders.

(** ** Title resolution (section 4.1) *)

Section Title.

Lemma lstrip_all_space (s : str) : all_space s = true -> lstrip s = [].
Proof.
  induction s as [|c s IH]; simpl; [reflexivity|].
  destruct (isspace c); [exact IH|discriminate].
Qed.

Lemma lstrip_nil_all_space (s : str) : lstrip s = [] -> all_space s = true.
Proof.
  induction s as [|c s IH]; simpl; [reflexivity|].
  destruct (isspace c); [exact IH|discriminate].
Qed.

Lemma lstrip_app_space (w s : str) :
  all_space w = true -> lstrip (w ++ s) = lstrip s.
Proof.
  induction w as [|c w IH]; simpl; [reflexivity|].
  destruct (isspace c); [exact IH|discriminate].
Qed.

(** Text that does not strip to nothing keeps what follows it. *)
Lemma lstrip_app_text (s t : str) :
  lstrip s <> [] -> lstrip (s ++ t) = lstrip s ++ t.
Proof.
  induction s as [|c s IH]; simpl; [congruence|].
  destruct (isspace c); [exact IH|reflexivity].
Qed.

Lemma all_space_rev (s : str) : all_space (rev s) = all_space s.
Proof.
  unfold all_space. induction s as [|c s IH]; [reflexivity|].
  simpl. rewrite forallb_app, IH. simpl. rewrite andb_true_r. apply andb_comm.
Qed.

Lemma rstrip_app_space (s w : str) :
  all_space w = true -> rstrip (s ++ w) = rstrip s.
Proof.
  intros Hw. unfold rstrip. rewrite rev_app_distr, lstrip_app_space;
    [reflexivity|]. now rewrite all_space_rev.
Qed.

Lemma rstrip_nil_all_space (s : str) : rstrip s = [] -> all_space s = true.
Proof.
  unfold rstrip. intros H.
  apply (f_equal (@rev ascii)) in H. rewrite rev_involutive in H. simpl in H.
  rewrite <- all_space_rev. now apply lstrip_nil_all_space.
Qed.

Lemma strip_all_space (s : str) : all_space s = true -> strip s = [].
Proof. intros H. unfold strip. now rewrite lstrip_all_space. Qed.

Lemma strip_nil_all_space (s : str) : strip s = [] -> all_space s = true.
Proof.
  unfold strip. intros H. apply rstrip_nil_all_space in H.
  destruct (lstrip s) as [|c t] eqn:E; [now apply lstrip_nil_all_space|].
  exfalso.
  assert (Hc : isspace c = false).
  { clear H. induction s as [|d s IH]; simpl in E; [discriminate|].
    destruct (isspace d) eqn:Ed; [exact (IH E)|]. now injection E as <- _. }
  simpl in H. now rewrite Hc in H.
Qed.

(** Leading whitespace of a line does not change its trimmed form. *)
Lemma strip_cons_space (c : ascii) (s : str) :
  isspace c = true -> strip (c :: s) = strip s.
Proof. intros H. unfold strip. simpl. now rewrite H. Qed.

(** Neither does trailing whitespace. *)
Lemma strip_app_space (s w : str) :
  all_space w = true -> strip (s ++ w) = strip s.
Proof.
  intros Hw. unfold strip.
  destruct (lstrip s) as [|c t] eqn:E.
  - apply lstrip_nil_all_space in E.
    rewrite lstrip_app_space by exact E.
    now rewrite (lstrip_all_space w Hw).
  - rewrite lstrip_app_text by (rewrite E; discriminate).
    rewrite E. now apply rstrip_app_space.
Qed.

Lemma scan_title_cons (l : str) (rest : list str) :
  scan_title (l :: rest)
  = match title_of_line l with
    | Some t => Some t
    | None => scan_title rest
    end.
Proof.
  unfold title_of_line. cbn [scan_title]. cbv zeta.
  destruct (truthy (strip l) && negb (startswith (lit "#") (strip l)));
    [reflexivity|].
  destruct (startswith (lit "# ") (strip l)); reflexivity.
Qed.

Lemma title_of_line_ext (l l' : str) :
  strip l = strip l' -> title_of_line l = title_of_line l'.
Proof. unfold title_of_line. now intros ->. Qed.

Lemma passed_over_title_of_line (l : str) :
  passed_over l = true -> title_of_line l = None.
Proof.
  unfold passed_over, title_of_line, truthy. cbv zeta.
  destruct (is_nil (strip l)) eqn:En.
  - destruct (strip l); [reflexivity|discriminate].
  - simpl. intros H. apply andb_true_iff in H as [H1 H2].
    rewrite H1. apply negb_true_iff in H2. now rewrite H2.
Qed.

Lemma blank_passed_over (l : str) : blank l = true -> passed_over l = true.
Proof. unfold blank, passed_over. now intros ->. Qed.

Lemma scan_title_passed_over (lines : list str) :
  forallb passed_over lines = true -> scan_title lines = None.
Proof.
  induction lines as [|l lines IH]; [reflexivity|].
  cbn [forallb]. intros H. apply andb_true_iff in H as [Hl Hr].
  rewrite scan_title_cons, (passed_over_title_of_line l Hl). now apply IH.
Qed.

Lemma scan_title_skip (before rest : list str) :
  forallb passed_over before = true ->
  scan_title (before ++ rest) = scan_title rest.
Proof.
  induction before as [|l before IH]; [reflexivity|].
  cbn [forallb app]. intros H. apply andb_true_iff in H as [Hl Hr].
  rewrite scan_title_cons, (passed_over_title_of_line l Hl). now apply IH.
Qed.

Lemma forallb_firstn {A : Type} (p : A -> bool) (n : nat) (l : list A) :
  forallb p l = true -> forallb p (firstn n l) = true.
Proof.
  revert n. induction l as [|x l IH]; intros [|n]; simpl; auto.
  intros H. apply andb_true_iff in H as [-> H]. now apply IH.
Qed.

End Title.

Section TitleLines.

Lemma all_space_passed_over (l : str) :
  all_space l = true -> passed_over l = true.
Proof.
  intros H. apply blank_passed_over. unfold blank.
  now rewrite (strip_all_space l H).
Qed.

Lemma forallb_impl {A : Type} (p q : A -> bool) (l : list A) :
  (forall x, p x = true -> q x = true) ->
  forallb p l = true -> forallb q l = true.
Proof.
  intros Hpq. induction l as [|x l IH]; simpl; [reflexivity|].
  intros H. apply andb_true_iff in H as [Hx Hl].
  now rewrite (Hpq x Hx), (IH Hl).
Qed.

Lemma split_on_cons (sep : ascii) (s : str) :
  exists l ls, split_on sep s = l :: ls.
Proof.
  induction s as [|c s (l & ls & E)]; simpl; [now exists [], []|].
  destruct (Ascii.eqb c sep); [now exists [], (split_on sep s)|].
  rewrite E. now exists (c :: l), ls.
Qed.

(** Whitespace splits into lines of whitespace. *)
Lemma split_on_all_space (sep : ascii) (s : str) :
  all_space s = true -> forallb all_space (split_on sep s) = true.
Proof.
  induction s as [|c s IH]; [reflexivity|].
  cbn [all_space forallb]. intros H. apply andb_true_iff in H as [Hc Hs].
  specialize (IH Hs). cbn [split_on].
  destruct (Ascii.eqb c sep); [exact IH|].
  destruct (split_on sep s) as [|l ls]; cbn [forallb all_space] in *;
    rewrite Hc; [reflexivity|exact IH].
Qed.

(** Whitespace added at the end of a text pads its lines. *)
Lemma split_on_padded (sep : ascii) (s w : str) :
  all_space w = true -> padded (split_on sep s) (split_on sep (s ++ w)).
Proof.
  intros Hw. induction s as [|c s IH].
  - cbn [app split_on].
    pose proof (split_on_all_space sep w Hw) as Hall.
    destruct (split_on_cons sep w) as (l & ls & E). rewrite E in *.
    cbn [forallb] in Hall. apply andb_true_iff in Hall as [Hl Hls].
    exact (padded_last [] l ls Hl Hls).
  - cbn [app split_on]. destruct (Ascii.eqb c sep).
    + now apply padded_cons.
    + inversion IH as [l u more Hu Hmore E1 E2|l ls ls' Hp E1 E2].
      * exact (padded_last (c :: l) u more Hu Hmore).
      * now apply padded_cons.
Qed.

(** Padding never yields a title that the text itself does not yield. *)
Lemma scan_title_padded (lines lines' : list str) :
  padded lines lines' ->
  forall (n : nat) (t : str),
    scan_title (firstn n lines') = Some t ->
    scan_title (firstn n lines) = Some t.
Proof.
  induction 1 as [l u more Hu Hmore|l ls ls' Hp IH]; intros [|n] t;
    cbn [firstn]; try discriminate; rewrite !scan_title_cons.
  - rewrite (title_of_line_ext (l ++ u) l (strip_app_space l u Hu)).
    destruct (title_of_line l); [easy|].
    rewrite scan_title_passed_over; [discriminate|].
    apply forallb_firstn.
    exact (forallb_impl _ _ _ all_space_passed_over Hmore).
  - destruct (title_of_line l); [easy|]. apply IH.
Qed.

(** A title found among the first [n] lines is found among more. *)
Lemma scan_title_more_lines (lines : list str) :
  forall (n : nat) (t : str),
    scan_title (firstn n lines) = Some t ->
    scan_title (firstn (S n) lines) = Some t.
Proof.
  induction lines as [|l lines IH]; intros [|n] t; cbn [firstn];
    try discriminate.
  rewrite !scan_title_cons.
  destruct (title_of_line l); [easy|]. apply IH.
Qed.

Lemma nl_isspace : isspace nl = true.
Proof. reflexivity. Qed.

(** Removing the leading whitespace of a text loses no title. *)
Lemma scan_title_lstrip (s : str) :
  forall (n : nat) (t : str),
    scan_title (firstn n (split_on nl s)) = Some t ->
    scan_title (firstn n (split_on nl (lstrip s))) = Some t.
Proof.
  induction s as [|c s IH]; intros n t; [easy|].
  cbn [lstrip]. destruct (isspace c) eqn:Ec; [|easy].
  cbn [split_on]. destruct (Ascii.eqb c nl) eqn:En; intros H; apply IH.
  - destruct n as [|n]; [discriminate|].
    cbn [firstn] in H. rewrite scan_title_cons in H.
    change (title_of_line []) with (@None str) in H.
    now apply scan_title_more_lines.
  - destruct (split_on_cons nl s) as (l & ls & E). rewrite E in *.
    destruct n as [|n]; [discriminate|].
    cbn [firstn] in *. rewrite scan_title_cons in *.
    now rewrite <- (title_of_line_ext (c :: l) l (strip_cons_space c l Ec)).
Qed.

Lemma lstrip_split (s : str) :
  exists w, s = w ++ lstrip s /\ all_space w = true.
Proof.
  induction s as [|c s (w & E & Hw)]; [now exists []|].
  cbn [lstrip]. destruct (isspace c) eqn:Ec.
  - exists (c :: w). cbn [app all_space forallb].
    split; [now rewrite <- E|]. now rewrite Ec.
  - now exists [].
Qed.

Lemma rstrip_split (s : str) :
  exists w, s = rstrip s ++ w /\ all_space w = true.
Proof.
  destruct (lstrip_split (rev s)) as (w & E & Hw).
  exists (rev w). split; [|now rewrite all_space_rev].
  unfold rstrip. rewrite <- rev_app_distr, <- E. now rewrite rev_involutive.
Qed.

(** Trimming the content before it is split loses no title. *)
Lemma scan_title_strip (s : str) (n : nat) (t : str) :
  scan_title (firstn n (split_on nl s)) = Some t ->
  scan_title (firstn n (split_on nl (strip s))) = Some t.
Proof.
  intros H. apply scan_title_lstrip in H.
  unfold strip.
  destruct (rstrip_split (lstrip s)) as (w & E & Hw).
  rewrite E in H at 1.
  exact (scan_title_padded _ _ (split_on_padded nl _ w Hw) n t H).
Qed.

End TitleLines.

Section TitleClaims.

Lemma strip_head_not_space (s : str) (c : ascii) (t : str) :
  strip s = c :: t -> isspace c = false.
Proof.
  unfold strip. intros H.
  destruct (rstrip_split (lstrip s)) as (w & E & _). rewrite H in E.
  destruct s as [|d s]; [discriminate|]. clear H.
  revert E. generalize (d :: s). intros u.
  induction u as [|x u IH]; cbn [lstrip]; [discriminate|].
  destruct (isspace x) eqn:Ex; [exact IH|].
  intros [= -> _]. exact Ex.
Qed.

(** A trimmed content whose first line is blank is empty: the lines that
    come first in the content as written were removed with the rest of
    the leading whitespace. *)
Lemma blank_first_line_all_space (content : str) (n : nat) :
  forallb blank (firstn (S n) (split_on nl (strip content))) = true ->
  all_space content = true.
Proof.
  intros H. apply strip_nil_all_space.
  destruct (strip content) as [|c t] eqn:E; [reflexivity|exfalso].
  pose proof (strip_head_not_space _ _ _ E) as Hc.
  cbn [split_on] in H.
  assert (En : Ascii.eqb c nl = false).
  { destruct (Ascii.eqb_spec c nl) as [->|]; [discriminate Hc|reflexivity]. }
  rewrite En in H.
  destruct (split_on_cons nl t) as (l & ls & El). rewrite El in H.
  cbn [firstn forallb] in H. apply andb_true_iff in H as [H _].
  unfold blank in H.
  destruct (strip (c :: l)) eqn:Es; [|discriminate].
  apply strip_nil_all_space in Es. cbn [all_space forallb] in Es.
  now rewrite Hc in Es.
Qed.

(** The example of section 8: a heading on the first line is the title. *)
Example heading_is_title :
  _extract_title (lit "# My Title" ++ [nl] ++ lit "Body text")
  = lit "My Title".
Proof. vm_compute. reflexivity. Qed.

(** C3, as stated, fails: after five blank lines the sixth line is taken
    as the title. *)
Lemma blank_lines_then_text_is_titled :
  forallb blank (firstn 5 (split_on nl content_blank_then_text)) = true
  /\ Reviewer.title
       (review_content env_first_seen content_blank_then_text [] [])
     = lit "Hello"
  /\ Reviewer.title
       (review_content env_first_seen content_blank_then_text [] [])
     <> lit "Untitled Content".
Proof.
  split; [vm_compute; reflexivity|]. split; [vm_compute; reflexivity|].
  vm_compute. discriminate.
Qed.

(** C3, amended.  The content is trimmed as a whole before its lines are
    counted.  For every content whose first 5 lines, counted from there,
    are each blank or start with [#] without being a [# ] heading, title
    resolution with no title supplied returns ["Untitled Content"],
    whatever the later lines contain. *)
Theorem untitled_when_first_lines_passed_over
        (env : Env) (content id : str) :
  forallb passed_over (firstn 5 (split_on nl (strip content))) = true ->
  Reviewer.title (review_content env content [] id)
  = lit "Untitled Content".
Proof.
  intros H. unfold review_content. cbn [Reviewer.title truthy is_nil negb].
  unfold _extract_title. cbv zeta.
  now rewrite (scan_title_passed_over _ H).
Qed.

(** The amended C3 on five [#] lines followed by a line of text. *)
Lemma untitled_when_first_lines_passed_over_witness :
  Reviewer.title (review_content env_first_seen content_hash_lines [] [])
  = lit "Untitled Content".
Proof.
  apply (untitled_when_first_lines_passed_over
           env_first_seen content_hash_lines []).
  vm_compute. reflexivity.
Defined.

(** Blank lines alone meet the condition of the amended C3 only in a
    content that is empty or all whitespace. *)
Lemma untitled_blank_content (env : Env) (content id : str) :
  forallb blank (firstn 5 (split_on nl (strip content))) = true ->
  all_space content = true
  /\ Reviewer.title (review_content env content [] id)
     = lit "Untitled Content".
Proof.
  intros H. split; [exact (blank_first_line_all_space content 4 H)|].
  unfold review_content. cbn [Reviewer.title truthy is_nil negb].
  unfold _extract_title. cbv zeta.
  rewrite scan_title_passed_over; [reflexivity|].
  exact (forallb_impl _ _ _ blank_passed_over H).
Qed.

(** C7, as stated, fails: the first line of the content is non-empty and
    does not start with [# ], yet the title is the second line. *)
Lemma hash_line_is_not_title :
  hd_error (firstn 5 (split_on nl content_hash_tag)) = Some (lit "#tag")
  /\ truthy (strip (lit "#tag")) = true
  /\ startswith (lit "# ") (strip (lit "#tag")) = false
  /\ Reviewer.title (review_content env_first_seen content_hash_tag [] [])
     = lit "Body"
  /\ Reviewer.title (review_content env_first_seen content_hash_tag [] [])
     <> firstn 100 (strip (lit "#tag")).
Proof.
  repeat split; try (vm_compute; reflexivity).
  vm_compute. discriminate.
Qed.

(** C7, amended.  With no title supplied, if among the first 5 lines of
    the content there is a line whose trimmed form is non-empty and does
    not start with [#], and every line before it is blank or starts with
    [#] without being a [# ] heading, then that line, trimmed and cut to
    100 characters, is the title. *)
Theorem first_text_line_is_title
        (env : Env) (content id : str)
        (before : list str) (line : str) (rest : list str) :
  firstn 5 (split_on nl content) = before ++ line :: rest ->
  forallb passed_over before = true ->
  truthy (strip line) = true ->
  startswith (lit "#") (strip line) = false ->
  Reviewer.title (review_content env content [] id)
  = firstn 100 (strip line).
Proof.
  intros Hlines Hbefore Htext Hhash.
  unfold review_content. cbn [Reviewer.title truthy is_nil negb].
  unfold _extract_title. cbv zeta.
  rewrite (scan_title_strip content 5 (firstn 100 (strip line)));
    [reflexivity|].
  rewrite Hlines, (scan_title_skip _ _ Hbefore), scan_title_cons.
  unfold title_of_line. cbv zeta. now rewrite Htext, Hhash.
Qed.

(** The amended C7 on a content whose fourth line is the first with text
    outside a [#] line. *)
Lemma first_text_line_is_title_witness :
  Reviewer.title (review_content env_first_seen content_text_third [] [])
  = lit "Install it".
Proof.
  apply (first_text_line_is_title
           env_first_seen content_text_third []
           [[]; lit "  "; lit "## Setup"] (lit "  Install it  ") [lit "More"]);
    vm_compute; reflexivity.
Defined.

End TitleClaims.

(** ** The HTTP layer (sections 6 and 7) *)

Section Http.

(** C4 (the handler departs from the claim).  For every request whose
    content is empty or whitespace-only the handler raises its 400
    "Content cannot be empty" before the evaluator is called, but inside
    the [try] whose [except Exception] turns every exception into a 500
    "Error processing content": the request is answered with status 500,
    which is no client error, whatever the evaluator would have done. *)
Theorem blank_content_is_answered_500
        (str_of_exn : Api.exn -> str)
        (evaluate : str -> str -> str -> ContentReview)
        (request : Api.ContentRequest) :
  truthy (strip (Api.content request)) = false ->
  Api.review_content str_of_exn evaluate request
  = Api.raise
      (Api.HTTPException 500
         (lit "Error processing content: "
          ++ str_of_exn
               (Api.HTTPException 400 (lit "Content cannot be empty"))))
  /\ error_status (Api.review_content str_of_exn evaluate request) = Some 500%Z
  /\ Api.client_error 500 = false.
Proof.
  intros H. unfold Api.review_content. rewrite H.
  repeat split.
Qed.

(** C4 at a request of three spaces, over the evaluator of the program. *)
Lemma blank_content_is_answered_500_witness :
  Api.review_endpoint str_of_exn_example env_first_seen request_spaces
  = inl (Api.HTTPException 500
           (lit "Error processing content: 400: Content cannot be empty")).
Proof.
  exact (proj1 (blank_content_is_answered_500
                  str_of_exn_example (review_content env_first_seen)
                  request_spaces eq_refl)).
Defined.

(** A request with content is evaluated and answered with the review. *)
Lemma content_is_reviewed
      (str_of_exn : Api.exn -> str)
      (evaluate : str -> str -> str -> ContentReview)
      (request : Api.ContentRequest) :
  truthy (strip (Api.content request)) = true ->
  Api.review_content str_of_exn evaluate request
  = Api.ret
      (Api.response_of
         (evaluate (Api.content request) (Api.or_empty (Api.title request))
                   (Api.or_empty (Api.content_id request)))).
Proof. intros H. unfold Api.review_content. now rewrite H. Qed.

End Http.

(* ------------------------------------------------------------------ *)
(** * Further properties of the code *)

Import Terms.

(** ** Rating and scoring *)

Section RatingOrder.
Local Open Scope Z_scope.

(** X1.  A higher score, with no placeholder flag added, never lowers the
    rating; setting the flag never raises it. *)
Theorem rating_is_monotone (s1 s2 : Z) (f1 f2 : PlaceholderFlags) :
  s1 <= s2 ->
  implb (has_placeholders f2) (has_placeholders f1) = true ->
  (rank (_determine_overall_rating s1 f1)
   <= rank (_determine_overall_rating s2 f2))%nat.
Proof.
  intros Hs Hf. rewrite !rating_by_adjusted. unfold Spec.adjusted.
  destruct (has_placeholders f1), (has_placeholders f2); try discriminate;
    repeat match goal with
           | |- context [?a <=? ?b] => destruct (Z.leb_spec a b)
           end; simpl; lia.
Qed.

(** From a flagged 85 to an unflagged 90. *)
Lemma rating_is_monotone_witness :
  (rank (_determine_overall_rating
           85 {| has_placeholders := true; details := [] |})
   <= rank (_determine_overall_rating
              90 {| has_placeholders := false; details := [] |}))%nat.
Proof.
  apply rating_is_monotone; [lia|reflexivity].
Defined.

Ltac divide_by_cases :=
  repeat match goal with
         | |- context [if ?b then _ else _] => destruct b
         end;
  first [ exists 0; lia | exists 1; lia | exists 2; lia | exists 3; lia
        | exists 4; lia | exists 6; lia ].

(** Every step of the running total adds a multiple of 5. *)
Lemma score_multiple_of_5 (content title : str) :
  (5 | _calculate_completeness_score content title).
Proof.
  rewrite running_total. unfold Amended.score.
  assert (H : (5 | Amended.bucket_sum content title)).
  { unfold Amended.bucket_sum.
    repeat apply Z.divide_add_r.
    - unfold Spec.bucket_title. divide_by_cases.
    - unfold Spec.bucket_overview. divide_by_cases.
    - unfold Spec.bucket_body. divide_by_cases.
    - unfold Amended.bucket_examples. divide_by_cases.
    - unfold Spec.bucket_references. divide_by_cases.
    - unfold Spec.bucket_metadata. divide_by_cases.
    - unfold Spec.bucket_formatting. divide_by_cases. }
  destruct (Z.min_spec (Amended.bucket_sum content title) 100) as [[_ ->]|[_ ->]];
    [exact H|exists 20; lia].
Qed.

(** A title that is present earns at least 5 points. *)
Lemma score_at_least_5 (content title : str) :
  truthy title = true -> 5 <= _calculate_completeness_score content title.
Proof.
  intros Ht. rewrite running_total. unfold Amended.score, Amended.bucket_sum.
  pose proof (bucket_overview_range content).
  pose proof (bucket_body_range content).
  pose proof (bucket_examples_range content).
  pose proof (bucket_references_range content).
  pose proof (bucket_metadata_range content).
  pose proof (bucket_formatting_range content).
  assert (5 <= Spec.bucket_title title).
  { unfold Spec.bucket_title. rewrite Ht. destruct (_ <? _)%nat; lia. }
  lia.
Qed.

End RatingOrder.

(** ** Title resolution: headings and emptiness *)

Section Headings.

Lemma lstrip_head_not_space (s : str) (c : ascii) (t : str) :
  lstrip s = c :: t -> isspace c = false.
Proof.
  induction s as [|d s IH]; cbn [lstrip]; [discriminate|].
  destruct (isspace d) eqn:Ed; [exact IH|].
  intros [= -> _]. exact Ed.
Qed.

(** A trimmed string does not end in whitespace. *)
Lemma strip_no_space_tail (s a w : str) :
  strip s = a ++ w -> all_space w = true -> w = [].
Proof.
  unfold strip, rstrip. intros H Hw.
  apply (f_equal (@rev ascii)) in H.
  rewrite rev_involutive, rev_app_distr in H.
  destruct (rev w) as [|c u] eqn:E.
  - apply (f_equal (@rev ascii)) in E. now rewrite rev_involutive in E.
  - cbn [app] in H. apply lstrip_head_not_space in H.
    rewrite <- all_space_rev, E in Hw. cbn [all_space forallb] in Hw.
    now rewrite H in Hw.
Qed.

Lemma startswith_app (p s : str) :
  startswith p s = true -> exists t, s = p ++ t.
Proof.
  revert s. induction p as [|a p IH]; intros s; [now exists s|].
  destruct s as [|b s]; cbn [startswith]; [discriminate|].
  intros H. apply andb_true_iff in H as [Hab Hp].
  apply Ascii.eqb_eq in Hab as ->.
  destruct (IH s Hp) as (t & ->). now exists t.
Qed.

(** Whatever a line gives as a title is not empty. *)
Lemma title_of_line_not_empty (l t : str) :
  title_of_line l = Some t -> truthy t = true.
Proof.
  unfold title_of_line. cbv zeta.
  destruct (truthy (strip l) && negb (startswith (lit "#") (strip l))) eqn:E.
  - intros [= <-]. apply andb_true_iff in E as [E _].
    destruct (strip l); [discriminate|reflexivity].
  - destruct (startswith (lit "# ") (strip l)) eqn:Eh; [|discriminate].
    intros [= <-].
    destruct (startswith_app _ _ Eh) as (rest & Hrest).
    rewrite Hrest. cbn [lit list_ascii_of_string app].
    destruct (strip rest) as [|c u] eqn:Es; [exfalso|reflexivity].
    apply strip_nil_all_space in Es.
    assert (Hw : " "%char :: rest = []); [|discriminate].
    apply (strip_no_space_tail l ["#"%char]); [exact Hrest|].
    cbn [all_space forallb]. exact Es.
Qed.

Lemma scan_title_not_empty (lines : list str) (t : str) :
  scan_title lines = Some t -> truthy t = true.
Proof.
  induction lines as [|l lines IH]; [discriminate|].
  rewrite scan_title_cons.
  destruct (title_of_line l) as [u|] eqn:E; [|exact IH].
  intros [= <-]. exact (title_of_line_not_empty l u E).
Qed.

Lemma extract_title_not_empty (content : str) :
  truthy (_extract_title content) = true.
Proof.
  unfold _extract_title. cbv zeta.
  destruct (scan_title _) as [t|] eqn:E; [|reflexivity].
  exact (scan_title_not_empty _ t E).
Qed.

Lemma resolved_title_not_empty (content title : str) :
  truthy (resolved_title content title) = true.
Proof.
  unfold resolved_title. destruct (truthy title) eqn:E; cbn [negb];
    [exact E|apply extract_title_not_empty].
Qed.

(** X3.  With no title supplied, if among the first 5 lines of the content a
    line starts, once trimmed, with [# ], and every line before it is
    blank or starts with [#] without being such a heading, then the title
    is the rest of that line, trimmed; it is not cut to 100 characters. *)
Theorem first_heading_is_title
        (env : Env) (content id : str)
        (before : list str) (line : str) (rest : list str) :
  firstn 5 (split_on nl content) = before ++ line :: rest ->
  forallb passed_over before = true ->
  startswith (lit "# ") (strip line) = true ->
  Reviewer.title (review_content env content [] id)
  = strip (skipn 2 (strip line)).
Proof.
  intros Hlines Hbefore Hhead.
  unfold review_content. cbn [Reviewer.title truthy is_nil negb].
  unfold _extract_title. cbv zeta.
  rewrite (scan_title_strip content 5 (strip (skipn 2 (strip line))));
    [reflexivity|].
  rewrite Hlines, (scan_title_skip _ _ Hbefore), scan_title_cons.
  unfold title_of_line. cbv zeta. rewrite Hhead.
  destruct (startswith_app _ _ Hhead) as (t & ->).
  reflexivity.
Qed.

(** A heading of 120 letters on the second line is the title, whole. *)
Lemma first_heading_is_title_witness :
  Reviewer.title
    (review_content env_first_seen
       ([nl] ++ lit "  # " ++ repeat "a"%char 120 ++ [nl] ++ lit "Body") [] [])
  = repeat "a"%char 120.
Proof.
  apply (first_heading_is_title
           env_first_seen _ []
           [[]] (lit "  # " ++ repeat "a"%char 120) [lit "Body"]);
    vm_compute; reflexivity.
Defined.

(** X2.  Every review has a title that is not empty, and a score that is a
    multiple of 5 between 5 and 100: the title alone earns 5 points. *)
Theorem review_title_and_score (env : Env) (content title id : str) :
  truthy (Reviewer.title (review_content env content title id)) = true
  /\ (5 <= completeness_score (review_content env content title id) <= 100)%Z
  /\ (5 | completeness_score (review_content env content title id))%Z.
Proof.
  unfold review_content. cbn [Reviewer.title completeness_score].
  fold (resolved_title content title).
  pose proof (resolved_title_not_empty content title) as Ht.
  split; [exact Ht|]. split; [split|].
  - now apply score_at_least_5.
  - rewrite running_total. unfold Amended.score. lia.
  - apply score_multiple_of_5.
Qed.

End Headings.

(** ** Perfect scores and the penalty *)

Section Perfect.
Local Open Scope Z_scope.

Lemma value_high (r : QualityRating) : value r = lit "High" <-> r = HIGH.
Proof.
  split; [|now intros ->].
  destruct r; [reflexivity| |]; intros H; vm_compute in H; discriminate H.
Qed.

Lemma long_title_is_present (title : str) :
  (5 <? List.length (strip title))%nat = true -> truthy title = true.
Proof.
  destruct title; [discriminate|reflexivity].
Qed.

(** X4.  A content of more than 500 words that names an overview, an example,
    an author, a link and a heading mark, under a title of more than 5
    characters, scores 100 and is rated High, flagged or not: the penalty
    of 20 leaves a full score at the threshold of High. *)
Theorem complete_content_is_rated_high
        (env : Env) (content title id : str) :
  (500 <? Spec.word_count content)%nat = true ->
  (5 <? List.length (strip title))%nat = true ->
  contains (lit "overview") (lower content) = true ->
  contains (lit "example") (lower content) = true ->
  contains (lit "http") content = true ->
  contains (lit "author") (lower content) = true ->
  contains (lit "#") content = true ->
  completeness_score (review_content env content title id) = 100
  /\ overall_rating (review_content env content title id) = lit "High".
Proof.
  intros Hw Ht Ho He Hh Ha Hf.
  pose proof (long_title_is_present title Ht) as Hp.
  assert (Hs : _calculate_completeness_score content title = 100).
  { rewrite running_total.
    unfold Amended.score, Amended.bucket_sum, Spec.bucket_title,
      Spec.bucket_overview, Spec.bucket_body, Amended.bucket_examples,
      Spec.bucket_references, Spec.bucket_metadata, Spec.bucket_formatting,
      any_in.
    cbn [existsb]. rewrite Hp, Ht, Ho, Hw, He, Hh, Ha, Hf.
    cbn [orb]. rewrite ?orb_true_r. reflexivity. }
  unfold review_content. cbn [completeness_score overall_rating].
  rewrite Hp. cbn [negb]. rewrite Hs. split; [reflexivity|].
  rewrite rating_by_adjusted. unfold Spec.adjusted.
  now destruct (has_placeholders _).
Qed.

(** The content of 505 words, once clean and once ending in [tbd]. *)
Lemma complete_content_is_rated_high_witness :
  (completeness_score
     (review_content env_first_seen content_complete (lit "A full guide") [])
   = 100
   /\ overall_rating
        (review_content env_first_seen content_complete (lit "A full guide") [])
      = lit "High")
  /\ (completeness_score
        (review_content env_first_seen (content_complete ++ lit "tbd")
                        (lit "A full guide") [])
      = 100
      /\ overall_rating
           (review_content env_first_seen (content_complete ++ lit "tbd")
                           (lit "A full guide") [])
         = lit "High").
Proof.
  split; apply complete_content_is_rated_high; vm_compute; reflexivity.
Defined.

(** X5.  A flagged review is rated High exactly when its score is 100. *)
Theorem flagged_review_high_only_at_100
        (env : Env) (content title id : str) :
  has_placeholders (placeholder_flags (review_content env content title id))
  = true ->
  (overall_rating (review_content env content title id) = lit "High"
   <-> completeness_score (review_content env content title id) = 100).
Proof.
  unfold review_content.
  cbn [placeholder_flags overall_rating completeness_score].
  intros Hf. rewrite value_high, rating_by_adjusted.
  unfold Spec.adjusted. rewrite Hf.
  set (s := _calculate_completeness_score _ _).
  assert (Hs : s <= 100).
  { unfold s. rewrite running_total. unfold Amended.score. lia. }
  destruct (Z.leb_spec 80 (s - 20)); [split; [lia|reflexivity]|].
  destruct (Z.leb_spec 50 (s - 20)); split; try discriminate; lia.
Qed.

(** A flagged content that scores 65. *)
Lemma flagged_review_high_only_at_100_witness :
  overall_rating
    (review_content env_first_seen (lit "overview example http author tbd")
                    (lit "A title") [])
  = lit "High"
  <-> completeness_score
        (review_content env_first_seen (lit "overview example http author tbd")
                        (lit "A title") [])
      = 100.
Proof.
  apply flagged_review_high_only_at_100. vm_compute. reflexivity.
Defined.

End Perfect.

(** ** Issues *)

Section Issues.

(** [re.search] succeeds exactly when [re.findall] returns something. *)
Lemma search_from_findall (r : regex) (s : str) :
  forall prev, search_from r prev s = truthy (findall_from r prev s 0).
Proof.
  induction s as [|c s IH]; intros prev; cbn [search_from findall_from];
    destruct (match_at r prev _); try reflexivity.
  apply IH.
Qed.

Lemma existsb_truthy_flat_map {A B : Type} (f : A -> list B) (l : list A) :
  existsb (fun x => truthy (f x)) l = truthy (flat_map f l).
Proof.
  induction l as [|x l IH]; [reflexivity|].
  cbn [existsb flat_map]. rewrite IH.
  destruct (f x); reflexivity.
Qed.

Lemma existsb_pointwise {A : Type} (f g : A -> bool) (l : list A) :
  (forall x, f x = g x) -> existsb f l = existsb g l.
Proof.
  intros H. induction l as [|x l IH]; [reflexivity|].
  cbn [existsb]. now rewrite H, IH.
Qed.

(** The placeholder check of the issue identifier is the detector's. *)
Lemma placeholder_search_is_found (content : str) :
  existsb (fun pattern => search pattern (lower content)) placeholder_patterns
  = truthy (found_placeholders content).
Proof.
  unfold found_placeholders. rewrite <- existsb_truthy_flat_map.
  apply existsb_pointwise. intros p. apply search_from_findall.
Qed.

Lemma In_str_eqb (x : str) (l : list str) :
  In x l <-> existsb (Batch.str_eqb x) l = true.
Proof.
  rewrite existsb_exists. unfold Batch.str_eqb. split.
  - intros H. exists x. split; [exact H|].
    now destruct (list_eq_dec ascii_dec x x).
  - intros (y & Hy & E).
    destruct (list_eq_dec ascii_dec x y) as [->|]; [exact Hy|discriminate].
Qed.

Lemma key_issues_selected (content title : str) (score : Z) :
  _identify_key_issues content title score
  = selected (title_inadequate title) (too_brief content)
             (lacks_examples content) (lacks_metadata content)
             (lacks_references content) (truthy (found_placeholders content)).
Proof.
  unfold _identify_key_issues. cbv zeta.
  now rewrite placeholder_search_is_found.
Qed.

Ltac decide_issue_membership :=
  rewrite ?In_str_eqb; vm_compute;
  repeat split; intros; try discriminate; try reflexivity; try tauto;
  repeat match goal with H : _ /\ _ |- _ => destruct H end;
  try discriminate.

(** What each selection holds. *)
Lemma selected_membership (b1 b2 b3 b4 b5 b6 : bool) :
  subseq (selected b1 b2 b3 b4 b5 b6) possible_issues
  /\ (In issue_title (selected b1 b2 b3 b4 b5 b6) <-> b1 = true)
  /\ (In issue_brief (selected b1 b2 b3 b4 b5 b6) <-> b2 = true)
  /\ (In issue_examples (selected b1 b2 b3 b4 b5 b6) <-> b3 = true)
  /\ (In issue_metadata (selected b1 b2 b3 b4 b5 b6) <-> b4 = true)
  /\ (In issue_references (selected b1 b2 b3 b4 b5 b6) <-> b5 = true)
  /\ (In issue_placeholder (selected b1 b2 b3 b4 b5 b6)
      <-> b6 = true /\ b1 && b2 && b3 && b4 && b5 = false).
Proof.
  split.
  - destruct b1, b2, b3, b4, b5, b6; unfold selected, possible_issues;
      cbn [append_if app firstn];
      repeat first [apply subseq_nil|apply subseq_take|apply subseq_skip].
  - destruct b1, b2, b3, b4, b5, b6; decide_issue_membership.
Qed.

(** X6.  The issues of a review come in the order of detection, none twice;
    each of the first five is reported exactly when its check holds. *)
Theorem key_issues_in_detection_order (content title : str) (score : Z) :
  subseq (_identify_key_issues content title score) possible_issues
  /\ (In issue_title (_identify_key_issues content title score)
      <-> title_inadequate title = true)
  /\ (In issue_brief (_identify_key_issues content title score)
      <-> too_brief content = true)
  /\ (In issue_examples (_identify_key_issues content title score)
      <-> lacks_examples content = true)
  /\ (In issue_metadata (_identify_key_issues content title score)
      <-> lacks_metadata content = true)
  /\ (In issue_references (_identify_key_issues content title score)
      <-> lacks_references content = true).
Proof.
  rewrite key_issues_selected.
  destruct (selected_membership
              (title_inadequate title) (too_brief content)
              (lacks_examples content) (lacks_metadata content)
              (lacks_references content)
              (truthy (found_placeholders content)))
    as (H0 & H1 & H2 & H3 & H4 & H5 & _).
  repeat split; try assumption; first [apply H1|apply H2|apply H3|apply H4|apply H5].
Qed.

(** X7.  The placeholder message is the sixth: it is reported exactly when a
    pattern matches and at least one of the five other checks passes. *)
Theorem placeholder_issue_iff (content title : str) (score : Z) :
  In issue_placeholder (_identify_key_issues content title score)
  <-> truthy (found_placeholders content) = true
      /\ title_inadequate title && too_brief content && lacks_examples content
         && lacks_metadata content && lacks_references content = false.
Proof.
  rewrite key_issues_selected. apply selected_membership.
Qed.

Lemma found_is_flagged (env : Env) (content : str) :
  truthy (found_placeholders content) = true ->
  has_placeholders (_detect_placeholders env content) = true.
Proof.
  intros H. unfold _detect_placeholders. cbn [has_placeholders].
  fold (found_placeholders content). now rewrite H.
Qed.

(** X8.  A review that reports placeholder text is flagged for placeholders. *)
Theorem placeholder_issue_is_flagged (env : Env) (content title id : str) :
  In issue_placeholder (key_issues (review_content env content title id)) ->
  has_placeholders (placeholder_flags (review_content env content title id))
  = true.
Proof.
  unfold review_content. cbn [key_issues placeholder_flags].
  rewrite key_issues_selected. intros H.
  apply selected_membership in H as [H _].
  now apply found_is_flagged.
Qed.

(** A short draft that names examples, an author and a link. *)
Lemma placeholder_issue_is_flagged_witness :
  has_placeholders
    (placeholder_flags
       (review_content env_first_seen
          (lit "Example code by the author, see http://x - draft")
          (lit "Release notes") []))
  = true.
Proof.
  apply placeholder_issue_is_flagged. vm_compute. tauto.
Defined.

(** X9.  When the five other checks all fail the content, the issues are
    those five and the placeholder message is left out, flagged or not. *)
Theorem five_issues_hide_placeholders (env : Env) (content title id : str) :
  title_inadequate (resolved_title content title) = true ->
  too_brief content = true ->
  lacks_examples content = true ->
  lacks_metadata content = true ->
  lacks_references content = true ->
  key_issues (review_content env content title id)
  = [issue_title; issue_brief; issue_examples; issue_metadata;
     issue_references].
Proof.
  intros H1 H2 H3 H4 H5.
  unfold review_content. cbn [key_issues]. fold (resolved_title content title).
  rewrite key_issues_selected, H1, H2, H3, H4, H5.
  now destruct (truthy (found_placeholders content)).
Qed.

(** The content [tbd], flagged, with its five issues. *)
Lemma five_issues_hide_placeholders_witness :
  has_placeholders
    (placeholder_flags (review_content env_first_seen (lit "tbd") [] []))
  = true
  /\ key_issues (review_content env_first_seen (lit "tbd") [] [])
     = [issue_title; issue_brief; issue_examples; issue_metadata;
        issue_references].
Proof.
  split; [vm_compute; reflexivity|].
  apply five_issues_hide_placeholders; vm_compute; reflexivity.
Defined.

End Issues.

(** ** Suggestions *)

Section Suggestions.

Lemma suggestion_for_cases (issue : str) :
  suggestion_for issue = []
  \/ exists f, suggestion_for issue = [f] /\ In f possible_fixes.
Proof.
  unfold suggestion_for, possible_fixes. cbv zeta.
  repeat match goal with
         | |- context [if ?b then _ else _] =>
             destruct b; [right; eexists; split; [reflexivity|simpl; tauto]|]
         end.
  now left.
Qed.

Lemma suggestions_from_issues (issues : list str) :
  Forall (fun f => In f possible_fixes) (flat_map suggestion_for issues)
  /\ List.length (flat_map suggestion_for issues) <= List.length issues.
Proof.
  induction issues as [|i issues [IH1 IH2]]; [split; [constructor|reflexivity]|].
  cbn [flat_map]. rewrite length_app. cbn [List.length].
  destruct (suggestion_for_cases i) as [->|(f & -> & Hf)]; cbn [app List.length].
  - split; [exact IH1|lia].
  - split; [now constructor|lia].
Qed.

Lemma filter_none {A : Type} (p : A -> bool) (l : list A) :
  existsb p l = false -> filter p l = [].
Proof.
  induction l as [|x l IH]; [reflexivity|].
  cbn [existsb filter]. intros H. apply orb_false_iff in H as [-> H].
  now apply IH.
Qed.

(** An issue that holds none of the six keywords gets no suggestion. *)
Lemma no_keyword_no_suggestion (issue : str) :
  any_in categories (lower issue) = false -> suggestion_for issue = [].
Proof.
  intros H. rewrite suggestion_by_category.
  unfold fix_by_category, matching_categories.
  now rewrite (filter_none _ _ H).
Qed.

(** X10.  Whatever issues it is given, the generator returns at most 5
    suggestions, at most one more than there are issues, and each is one
    of its seven fixed messages; an issue under none of its keywords adds
    nothing: it gets no suggestion, and the suggestions are those of the
    list without it. *)
Theorem suggestions_are_fixed_messages (issues : list str) (content : str) :
  Forall (fun f => In f possible_fixes) (_generate_suggestions issues content)
  /\ List.length (_generate_suggestions issues content) <= 5
  /\ List.length (_generate_suggestions issues content)
     <= List.length issues + 1
  /\ (forall issue : str,
        any_in categories (lower issue) = false -> suggestion_for issue = [])
  /\ (forall (before : list str) (issue : str) (after : list str),
        any_in categories (lower issue) = false ->
        issues = before ++ issue :: after ->
        _generate_suggestions issues content
        = _generate_suggestions (before ++ after) content).
Proof.
  split; [|split; [|split; [|split]]].
  - unfold _generate_suggestions. cbv zeta.
    destruct (suggestions_from_issues issues) as [Hall Hlen].
    apply Forall_firstn. apply append_if_Forall; [|exact Hall].
    unfold possible_fixes. simpl. tauto.
  - apply firstn_le_length.
  - unfold _generate_suggestions. cbv zeta.
    destruct (suggestions_from_issues issues) as [Hall Hlen].
    rewrite length_firstn, append_if_length.
    destruct (_ <? 200); lia.
  - exact no_keyword_no_suggestion.
  - intros before issue after Hk ->.
    unfold _generate_suggestions. cbv zeta.
    rewrite !flat_map_app. cbn [flat_map].
    now rewrite (no_keyword_no_suggestion issue Hk).
Qed.

(** Each of the six messages gets the fix meant for it. *)
Lemma paired_fix_spec (i : str) :
  In i possible_issues ->
  suggestion_for i = paired_fix i
  /\ exists f, paired_fix i = [f] /\ f <> fix_general.
Proof.
  unfold possible_issues. simpl.
  intros [<-|[<-|[<-|[<-|[<-|[<-|[]]]]]]];
    (split; [vm_compute; reflexivity|]);
    eexists; (split; [vm_compute; reflexivity|]);
    intros H; vm_compute in H; discriminate H.
Qed.

Lemma paired_fixes (issues : list str) :
  Forall (fun i => In i possible_issues) issues ->
  flat_map suggestion_for issues = flat_map paired_fix issues
  /\ List.length (flat_map paired_fix issues) = List.length issues
  /\ ~ In fix_general (flat_map paired_fix issues).
Proof.
  induction 1 as [|i issues Hi _ (IH1 & IH2 & IH3)];
    [repeat split; intros []|].
  destruct (paired_fix_spec i Hi) as (E & f & Ef & Hf).
  cbn [flat_map]. rewrite E, IH1, Ef. cbn [app List.length].
  repeat split; [now rewrite IH2|].
  intros [H|H]; [now apply Hf|now apply IH3].
Qed.

Lemma firstn_In_inv {A : Type} (x : A) (n : nat) (l : list A) :
  In x (firstn n l) -> In x l.
Proof.
  revert n. induction l as [|y l IH]; intros [|n]; cbn [firstn In];
    try tauto.
  intros [H|H]; [now left|right; now apply (IH n)].
Qed.

(** X11.  In a review every issue is answered, in order, by the fix meant for
    it; the general suggestion follows exactly when the content has fewer
    than 200 words and fewer than 5 issues were reported. *)
Theorem fixes_answer_issues (env : Env) (content title id : str) :
  suggested_fixes (review_content env content title id)
  = firstn 5
      (flat_map paired_fix (key_issues (review_content env content title id))
       ++ (if Spec.word_count content <? 200 then [fix_general] else []))
  /\ (In fix_general (suggested_fixes (review_content env content title id))
      <-> Spec.word_count content < 200
          /\ List.length (key_issues (review_content env content title id)) < 5).
Proof.
  unfold review_content. cbn [suggested_fixes key_issues].
  set (issues := _identify_key_issues _ _ _).
  assert (Hin : Forall (fun i => In i possible_issues) issues)
    by apply issues_are_possible.
  assert (Hcap : List.length issues <= 5)
    by apply firstn_le_length.
  destruct (paired_fixes issues Hin) as (E & Hlen & Hno).
  unfold _generate_suggestions, append_if, Spec.word_count. cbv zeta.
  rewrite E.
  set (fixes := flat_map paired_fix issues) in *.
  destruct (Nat.ltb_spec (List.length (split_ws content)) 200) as [Hw|Hw].
  - split; [reflexivity|].
    rewrite firstn_app, Hlen.
    destruct (Nat.eq_dec (List.length issues) 5) as [E5|N5].
    + rewrite E5. change (5 - 5) with 0. rewrite firstn_O, app_nil_r.
      split; [|lia]. intros H. exfalso. apply Hno.
      exact (firstn_In_inv _ _ _ H).
    + split; [intros _; lia|intros _].
      apply in_or_app. right.
      replace (5 - List.length issues) with (S (4 - List.length issues))
        by lia.
      now left.
  - rewrite app_nil_r. split; [reflexivity|].
    split; [|lia]. intros H. exfalso. apply Hno.
    exact (firstn_In_inv _ _ _ H).
Qed.

End Suggestions.

(** ** The share of short lines *)

Section ShortLines.
Local Open Scope Z_scope.

Lemma mul_0_3_of_nat (n : nat) : PyFloat.mul_0_3 n = mul_0_3_Z (Z.of_nat n).
Proof. reflexivity. Qed.

Lemma ten_m03 : 10 * PyFloat.m03 = 3 * 2 ^ 54 - 2.
Proof. reflexivity. Qed.

Lemma int_gt_exact_Z (n k : Z) :
  0 <= n < 2 ^ 50 -> 0 <= k ->
  (let (q, e) := mul_0_3_Z n in
   if 0 <=? e then q * 2 ^ e <? k else q <? k * 2 ^ (- e))
  = (3 * n <? 10 * k).
Proof.
  intros Hn Hk. unfold mul_0_3_Z.
  pose proof ten_m03 as HM. 
  set (P := n * PyFloat.m03) in *.
  assert (HP : 10 * P = n * (3 * 2 ^ 54 - 2)) by (unfold P; lia).
  change (2 ^ 54) with 18014398509481984 in *.
  change (2 ^ 50) with 1125899906842624 in *.
  destruct (Z.eqb_spec P 0) as [E0|N0].
  - cbv zeta. cbn [Z.leb Z.compare]. 
    assert (n = 0) by lia. subst n. rewrite E0.
    change (- -54) with 54. change (2 ^ 54) with 18014398509481984.
    destruct (Z.ltb_spec 0 (k * 18014398509481984)), (Z.ltb_spec (3 * 0) (10 * k)); try reflexivity; lia.
  - assert (HPpos : 0 < P) by lia.
    pose proof (Z.log2_spec P HPpos) as [HL1 HL2].
    pose proof (Z.log2_nonneg P) as HL0.
    set (L := Z.log2 P) in *.
    cbv zeta.
    destruct (Z.leb_spec (L + 1) 53) as [Hb|Hb].
    + (* exact product: n = 1 *)
      assert (HP53 : P < 2 ^ 53).
      { eapply Z.lt_le_trans; [exact HL2|]. apply Z.pow_le_mono_r; lia. }
      change (2 ^ 53) with 9007199254740992 in HP53.
      assert (n = 1) by lia. subst n.
      cbn [Z.leb Z.compare]. change (- -54) with 54.
      change (2 ^ 54) with 18014398509481984.
      destruct (Z.ltb_spec P (k * 18014398509481984)), (Z.ltb_spec (3 * 1) (10 * k)); try reflexivity; lia.
    + assert (HL : L < 103).
      { apply (Z.pow_lt_mono_r_iff 2); [lia|lia|].
        eapply Z.le_lt_trans; [exact HL1|].
        change (2 ^ 103) with 10141204801825835211973625643008. lia. }
      set (sh := L + 1 - 53).
      assert (Hsh : 1 <= sh <= 50) by (unfold sh; lia).
      destruct (Z.leb_spec 0 (sh - 54)) as [He|He]; [lia|].
      set (u := 2 ^ sh).
      assert (Hu : 0 < u) by (apply Z.pow_pos_nonneg; lia).
      assert (Hu52 : u * 2 ^ 52 = 2 ^ L).
      { unfold u. rewrite <- Z.pow_add_r by lia. f_equal. unfold sh. lia. }
      assert (Hu53 : u * 2 ^ 53 = 2 ^ Z.succ L).
      { unfold u. rewrite <- Z.pow_add_r by lia. f_equal. unfold sh. lia. }
      change (2 ^ 52) with 4503599627370496 in Hu52.
      change (2 ^ 53) with 9007199254740992 in Hu53.
      rewrite Z.shiftr_div_pow2, !Z.shiftl_mul_pow2 by lia.
      fold u. rewrite Z.mul_1_l.
      set (q := P / u).
      set (rem := P - q * u).
      assert (Hdiv : P = u * q + P mod u) by (apply Z.div_mod; lia).
      pose proof (Z.mod_pos_bound P u Hu) as Hmod.
      assert (Hrem : rem = P mod u) by (unfold rem, q; lia).
      set (half := 2 ^ (sh - 1)).
      assert (Hhalf : 2 * half = u).
      { unfold half, u. replace sh with (1 + (sh - 1)) at 2 by lia.
        rewrite Z.pow_add_r by lia. reflexivity. }
      set (w := 2 ^ (- (sh - 54))).
      assert (Hw : w * u = 18014398509481984).
      { unfold w, u. rewrite <- Z.pow_add_r by lia.
        replace (- (sh - 54) + sh) with 54 by lia. reflexivity. }
      assert (Hw0 : 0 < w) by (apply Z.pow_pos_nonneg; lia).
      destruct ((half <? rem) || (rem =? half) && Z.odd q) eqn:Eb.
      * assert (Hr : half <= rem).
        { apply orb_true_iff in Eb as [Eb|Eb].
          - apply Z.ltb_lt in Eb. lia.
          - apply andb_true_iff in Eb as [Eb _]. apply Z.eqb_eq in Eb. lia. }
        destruct (Z.ltb_spec (q + 1) (k * w)), (Z.ltb_spec (3 * n) (10 * k)); try reflexivity; exfalso.
        -- assert ((q + 2) * u <= k * w * u)
             by (apply Z.mul_le_mono_nonneg_r; lia).
           rewrite <- Z.mul_assoc, Hw in *. lia.
        -- assert (k * w * u <= (q + 1) * u)
             by (apply Z.mul_le_mono_nonneg_r; lia).
           rewrite <- Z.mul_assoc, Hw in *. lia.
      * assert (Hr : rem <= half).
        { apply orb_false_iff in Eb as [Eb _]. apply Z.ltb_ge in Eb. lia. }
        destruct (Z.ltb_spec q (k * w)), (Z.ltb_spec (3 * n) (10 * k)); try reflexivity; exfalso.
        -- assert ((q + 1) * u <= k * w * u)
             by (apply Z.mul_le_mono_nonneg_r; lia).
           rewrite <- Z.mul_assoc, Hw in *. lia.
        -- assert (k * w * u <= q * u)
             by (apply Z.mul_le_mono_nonneg_r; lia).
           rewrite <- Z.mul_assoc, Hw in *. lia.
Qed.

(** Below 2^50 lines the binary64 test [short > lines * 0.3] decides
    exactly whether more than three tenths of the lines are short. *)
Lemma int_gt_exact (k n : nat) :
  Z.of_nat n < 2 ^ 50 ->
  PyFloat.int_gt k (PyFloat.mul_0_3 n) = (3 * n <? 10 * k)%nat.
Proof.
  intros Hn. rewrite mul_0_3_of_nat. unfold PyFloat.int_gt.
  pose proof (int_gt_exact_Z (Z.of_nat n) (Z.of_nat k)) as H.
  destruct (mul_0_3_Z (Z.of_nat n)) as [q e].
  rewrite H by lia.
  destruct (Z.ltb_spec (3 * Z.of_nat n) (10 * Z.of_nat k)),
    (Nat.ltb_spec (3 * n) (10 * k)); try reflexivity; lia.
Qed.

(** X12.  A content of fewer than 2^50 lines is flagged exactly when a pattern
    matches or more than three tenths of its lines, blank ones counted,
    are short (1 to 19 characters once trimmed): the floating-point
    product in the test never tips the comparison. *)
Theorem flag_by_patterns_or_short_lines (env : Env) (content : str) :
  Z.of_nat (List.length (split_on nl content)) < 2 ^ 50 ->
  has_placeholders (_detect_placeholders env content)
  = truthy (found_placeholders content)
    || (3 * List.length (split_on nl content)
        <? 10 * List.length (short_sections content))%nat.
Proof.
  intros Hn. unfold _detect_placeholders. cbn [has_placeholders].
  fold (found_placeholders content). fold (short_sections content).
  now rewrite int_gt_exact.
Qed.

(** One short line out of three flags the content; no pattern matches. *)
Lemma flag_by_patterns_or_short_lines_witness :
  has_placeholders
    (_detect_placeholders env_first_seen
       (lit "Hello" ++ [nl] ++ lit "A line of twenty characters or more"
        ++ [nl]))
  = truthy (found_placeholders
              (lit "Hello" ++ [nl]
               ++ lit "A line of twenty characters or more" ++ [nl]))
    || (3 * 3 <? 10 * 1)%nat.
Proof.
  apply (flag_by_patterns_or_short_lines env_first_seen). vm_compute.
  reflexivity.
Defined.

End ShortLines.

(** ** The details line *)

Section Details.

Lemma all_space_app (a b : str) :
  all_space (a ++ b) = all_space a && all_space b.
Proof. apply forallb_app. Qed.

Lemma found_text_not_empty (rest : str) :
  strip (lit "Found placeholders: " ++ rest) <> [].
Proof.
  intros H. apply strip_nil_all_space in H. discriminate H.
Qed.

Lemma count_text_not_empty (before : str) (n : nat) :
  strip (before ++ lit " " ++ str_of_nat n
         ++ lit " very short lines detected") <> [].
Proof.
  intros H. apply strip_nil_all_space in H.
  rewrite !all_space_app in H.
  change (all_space (lit " very short lines detected")) with false in H.
  rewrite !andb_false_r in H. discriminate H.
Qed.

(** X13.  The details are empty exactly when no pattern matched and at most 5
    lines are short; a content can be flagged and still have no details. *)
Theorem details_empty_iff (env : Env) (content : str) :
  details (_detect_placeholders env content) = []
  <-> found_placeholders content = []
      /\ List.length (short_sections content) <= 5.
Proof.
  unfold _detect_placeholders. cbn [details].
  fold (found_placeholders content). fold (short_sections content).
  destruct (found_placeholders content) as [|p ps] eqn:Ef; cbn [truthy is_nil negb];
    destruct (Nat.ltb_spec 5 (List.length (short_sections content)))
      as [Hs|Hs].
  - split; [intros H; now apply count_text_not_empty in H|intros [_ H]; lia].
  - split; [now split|reflexivity].
  - split; [intros H; now apply count_text_not_empty in H|intros [[=] _]].
  - split; [intros H; now apply found_text_not_empty in H|intros [[=] _]].
Qed.

(** Every way a pattern matches splits the text it was given. *)
Lemma rmatch_splits (r : regex) :
  forall prev s m, In m (rmatch r prev s) -> s = fst m ++ snd m.
Proof.
  induction r as [|a| |r1 IH1 r2 IH2|r1 IH1 r2 IH2|g a lo];
    intros prev s m; cbn [rmatch].
  - intros [<-|[]]. reflexivity.
  - destruct s as [|c s]; [intros []|].
    destruct (atom_ok a c); [|intros []]. intros [<-|[]]. reflexivity.
  - destruct (at_boundary _ _); [|intros []]. intros [<-|[]]. reflexivity.
  - rewrite in_flat_map. intros (m1 & H1 & H2).
    apply in_map_iff in H2 as (m2 & <- & H2). cbn [fst snd].
    rewrite (IH1 _ _ _ H1) at 1. rewrite (IH2 _ _ _ H2) at 1.
    now rewrite app_assoc.
  - rewrite in_app_iff. intros [H|H]; [exact (IH1 _ _ _ H)|exact (IH2 _ _ _ H)].
  - rewrite in_map_iff. intros (n & <- & _). cbn [fst snd].
    symmetry. apply firstn_skipn.
Qed.

Lemma match_at_prefix (r : regex) (prev : option ascii) (s m : str) :
  match_at r prev s = Some m -> exists rest, s = m ++ rest.
Proof.
  unfold match_at. destruct (rmatch r prev s) as [|x l] eqn:E; [discriminate|].
  intros [= <-]. exists (snd x).
  apply (rmatch_splits r prev). rewrite E. now left.
Qed.

Lemma startswith_self (m rest : str) : startswith m (m ++ rest) = true.
Proof.
  induction m as [|c m IH]; [reflexivity|].
  cbn [app startswith]. now rewrite Ascii.eqb_refl, IH.
Qed.

Lemma contains_cons (m : str) (c : ascii) (s : str) :
  contains m s = true -> contains m (c :: s) = true.
Proof. intros H. cbn [contains]. rewrite H. apply orb_true_r. Qed.

Lemma contains_prefix (m rest : str) : contains m (m ++ rest) = true.
Proof.
  destruct (m ++ rest) eqn:E; cbn [contains];
    rewrite <- E, startswith_self; reflexivity.
Qed.

(** What [findall] returns occurs in the text. *)
Lemma findall_from_occurs (r : regex) (s : str) :
  forall prev skip m,
    In m (findall_from r prev s skip) -> contains m s = true.
Proof.
  induction s as [|c s IH]; intros prev skip m; cbn [findall_from].
  - destruct skip; [|intros []].
    destruct (match_at r prev []) as [x|] eqn:E; [|intros []].
    intros [<-|[]]. destruct (match_at_prefix _ _ _ _ E) as (rest & ->).
    apply contains_prefix.
  - destruct skip as [|k].
    + destruct (match_at r prev (c :: s)) as [x|] eqn:E.
      * intros [<-|H].
        -- destruct (match_at_prefix _ _ _ _ E) as (rest & ->).
           apply contains_prefix.
        -- apply contains_cons. exact (IH _ _ _ H).
      * intros H. apply contains_cons. exact (IH _ _ _ H).
    + intros H. apply contains_cons. exact (IH _ _ _ H).
Qed.

Lemma found_placeholders_occur (content : str) :
  Forall (fun m => contains m (lower content) = true)
         (found_placeholders content).
Proof.
  apply Forall_forall. intros m H. unfold found_placeholders in H.
  apply in_flat_map in H as (p & _ & H).
  exact (findall_from_occurs _ _ _ _ _ H).
Qed.

(** X14.  When a pattern matches, the details name at least one and at most
    three distinct matches, each a piece of the lower-cased content, after
    the words [Found placeholders:]. *)
Theorem details_list_matches (env : Env) (content : str) :
  set_order (set_iter env) ->
  truthy (found_placeholders content) = true ->
  let listed := set_iter env (firstn 3 (found_placeholders content)) in
  NoDup listed
  /\ 1 <= List.length listed <= 3
  /\ Forall (fun m => contains m (lower content) = true) listed
  /\ details (_detect_placeholders env content)
     = strip (lit "Found placeholders: " ++ join (lit ", ") listed
              ++ (if 5 <? List.length (short_sections content)
                  then lit " "
                       ++ str_of_nat (List.length (short_sections content))
                       ++ lit " very short lines detected"
                  else [])).
Proof.
  intros Hset Hfound. cbv zeta.
  destruct (Hset (firstn 3 (found_placeholders content))) as [Hnd Hin].
  split; [exact Hnd|]. split; [split|split].
  - destruct (found_placeholders content) as [|p ps]; [discriminate|].
    assert (Hp : In p (set_iter env (firstn 3 (p :: ps))))
      by (apply Hin; now left).
    destruct (set_iter env (firstn 3 (p :: ps)));
      [destruct Hp|cbn [List.length]; lia].
  - transitivity (List.length (firstn 3 (found_placeholders content)));
      [|apply firstn_le_length].
    apply NoDup_incl_length; [exact Hnd|].
    intros x Hx. now apply Hin.
  - apply Forall_forall. intros m Hm.
    apply Hin, firstn_In_inv in Hm.
    exact (proj1 (Forall_forall _ _) (found_placeholders_occur content) m Hm).
  - unfold _detect_placeholders. cbn [details].
    fold (found_placeholders content). fold (short_sections content).
    rewrite Hfound.
    destruct (5 <? _); [|now rewrite app_nil_r].
    now rewrite <- !app_assoc.
Qed.

(** The two placeholders of [tbd todo], first seen first. *)
Lemma details_list_matches_witness :
  details (_detect_placeholders env_first_seen content_two_placeholders)
  = lit "Found placeholders: tbd, todo".
Proof.
  exact (proj2 (proj2 (proj2
           (details_list_matches env_first_seen content_two_placeholders
                                 first_seen_order eq_refl)))).
Defined.

End Details.

(** ** The HTTP layer: answers of [/review] and [/batch-review] *)

Section Endpoints.

Lemma rating_value_cases (r : QualityRating) :
  In (value r) [lit "High"; lit "Medium"; lit "Low"].
Proof. destruct r; simpl; tauto. Qed.

(** X15.  A request with content is answered with the review of that content:
    a title and an id that are not empty, a score between 5 and 100, one
    of the three ratings and at most 5 issues and 5 suggestions. *)
Theorem review_endpoint_answers
        (str_of_exn : Api.exn -> str) (env : Env)
        (request : Api.ContentRequest) :
  truthy (strip (Api.content request)) = true ->
  exists response,
    Api.review_endpoint str_of_exn env request = Api.ret response
    /\ response
       = Api.response_of
           (review_content env (Api.content request)
                           (Api.or_empty (Api.title request))
                           (Api.or_empty (Api.content_id request)))
    /\ truthy (Api.r_title response) = true
    /\ truthy (Api.r_content_id response) = true
    /\ (5 <= Api.r_completeness_score response <= 100)%Z
    /\ In (Api.r_overall_rating response) [lit "High"; lit "Medium"; lit "Low"]
    /\ List.length (Api.r_key_issues response) <= 5
    /\ List.length (Api.r_suggested_fixes response) <= 5.
Proof.
  intros H. eexists. split; [|split; [reflexivity|]].
  - unfold Api.review_endpoint. now apply content_is_reviewed.
  - unfold Api.response_of, review_content.
    cbn [Api.r_title Api.r_content_id Api.r_completeness_score
         Api.r_overall_rating Api.r_key_issues Api.r_suggested_fixes
         Reviewer.title content_id completeness_score overall_rating
         key_issues suggested_fixes].
    fold (resolved_title (Api.content request)
                         (Api.or_empty (Api.title request))).
    pose proof (resolved_title_not_empty
                  (Api.content request) (Api.or_empty (Api.title request)))
      as Ht.
    split; [exact Ht|]. split.
    { destruct (truthy (Api.or_empty (Api.content_id request))) eqn:E;
        [exact E|reflexivity]. }
    split.
    { split; [now apply score_at_least_5|].
      rewrite running_total. unfold Amended.score. lia. }
    split; [apply rating_value_cases|].
    split; apply firstn_le_length.
Qed.

(** A request of one word, without title or id. *)
Lemma review_endpoint_answers_witness :
  exists response,
    Api.review_endpoint str_of_exn_example env_first_seen
      {| Api.content := lit "Hello"; Api.title := None;
         Api.content_id := None |}
    = Api.ret response
    /\ Api.r_title response = lit "Hello"
    /\ Api.r_content_id response = lit "content_20240101_120000".
Proof.
  destruct (review_endpoint_answers
              str_of_exn_example env_first_seen
              {| Api.content := lit "Hello"; Api.title := None;
                 Api.content_id := None |} eq_refl)
    as (response & H & -> & _).
  eexists. split; [exact H|]. split; vm_compute; reflexivity.
Defined.

(** X16.  A batch without items is turned down with 400 "No content provided"
    inside the [try], and so answered with status 500, like a blank
    content at [/review]. *)
Theorem empty_batch_is_answered_500
        (F : Type) (fdiv : Z -> Z -> F) (fmul100 fround1 : F -> F)
        (str_of_exn : Api.exn -> str)
        (evaluate : nat -> str -> str -> str -> ContentReview) :
  Batch.batch_review_content F fdiv fmul100 fround1 str_of_exn evaluate
    {| Batch.contents := [] |}
  = Api.raise
      (Api.HTTPException 500
         (lit "Error processing batch content: "
          ++ str_of_exn (Api.HTTPException 400 (lit "No content provided"))))
  /\ Api.client_error 500 = false.
Proof. split; reflexivity. Qed.

End Endpoints.

Section BatchSummary.
Local Open Scope Z_scope.

Variable F : Type.
Variable fdiv : Z -> Z -> F.
Variables fmul100 fround1 : F -> F.
Variable str_of_exn : Api.exn -> str.
Variable envs : nat -> Env.

Lemma count_rating_cons (name : str) (r : Api.ContentResponse)
      (rs : list Api.ContentResponse) :
  count_rating name (r :: rs)
  = (if Batch.str_eqb (Api.r_overall_rating r) name then 1 else 0)
    + count_rating name rs.
Proof.
  unfold count_rating. cbn [filter].
  destruct (Batch.str_eqb _ _); cbn [List.length]; lia.
Qed.

Lemma count_flagged_cons (r : Api.ContentResponse)
      (rs : list Api.ContentResponse) :
  count_flagged (r :: rs)
  = (if fst (Api.r_placeholder_flags r) then 1 else 0) + count_flagged rs.
Proof.
  unfold count_flagged. cbn [filter].
  destruct (fst _); cbn [List.length]; lia.
Qed.

(** The counter of the rating of a review goes up by one. *)
Lemma dict_incr_rating (r : QualityRating) (h m l : Z) :
  Batch.dict_incr (value r)
                  [(lit "High", h); (lit "Medium", m); (lit "Low", l)]
  = inr [(lit "High", h + if Batch.str_eqb (value r) (lit "High") then 1 else 0);
         (lit "Medium",
          m + if Batch.str_eqb (value r) (lit "Medium") then 1 else 0);
         (lit "Low", l + if Batch.str_eqb (value r) (lit "Low") then 1 else 0)].
Proof.
  destruct r; cbn [Batch.dict_incr];
    repeat match goal with
           | |- context [Batch.str_eqb ?a ?b] =>
               let v := eval vm_compute in (Batch.str_eqb a b) in
               change (Batch.str_eqb a b) with v
           end;
    cbn [Api.ret]; rewrite ?Z.add_0_r; reflexivity.
Qed.

(** The loop of the batch handler, from any state of its variables. *)
Lemma batch_loop_runs (contents : list Api.ContentRequest) :
  forall (acc : Batch.Acc) (h m l : Z),
    Batch.acc_ratings_count acc
    = [(lit "High", h); (lit "Medium", m); (lit "Low", l)] ->
    let rs := batch_responses envs (List.length (Batch.acc_results acc))
                              contents in
    Batch.batch_loop (fun k => review_content (envs k)) contents acc
    = inr {| Batch.acc_results := Batch.acc_results acc ++ rs;
             Batch.acc_ratings_count := tally rs h m l;
             Batch.acc_total_score := Batch.acc_total_score acc + sum_scores rs;
             Batch.acc_placeholder_count :=
               Batch.acc_placeholder_count acc + count_flagged rs |}.
Proof.
  induction contents as [|req rest IH]; intros acc h m l Hd; cbv zeta.
  - cbn [Batch.batch_loop batch_responses]. unfold tally, sum_scores.
    change (count_rating _ []) with 0. change (count_flagged []) with 0.
    cbn [map fold_right]. rewrite app_nil_r, !Z.add_0_r, <- Hd.
    now destruct acc.
  - cbn [Batch.batch_loop batch_responses].
    destruct (truthy (strip (Api.content req))) eqn:E; cbn [negb].
    + set (review := review_content _ _ _ _).
      assert (Hr : exists r, overall_rating review = value r)
        by (now eexists).
      destruct Hr as (r & Hr).
      rewrite Hd, Hr, dict_incr_rating.
      lazy beta iota zeta.
      erewrite IH by reflexivity. cbv zeta.
      cbn [Batch.acc_results Batch.acc_total_score
           Batch.acc_placeholder_count].
      rewrite length_app, Nat.add_1_r. cbn [List.length].
      set (rs := batch_responses envs _ rest).
      unfold tally. rewrite !count_rating_cons, count_flagged_cons.
      unfold sum_scores. cbn [map fold_right]. fold (sum_scores rs).
      change (Api.r_overall_rating (Api.response_of review))
        with (overall_rating review).
      change (fst (Api.r_placeholder_flags (Api.response_of review)))
        with (has_placeholders (placeholder_flags review)).
      change (Api.r_completeness_score (Api.response_of review))
        with (completeness_score review).
      rewrite Hr, <- app_assoc. cbn [app].
      rewrite !Z.add_assoc.
      destruct (has_placeholders _); rewrite ?Z.add_0_r; reflexivity.
    + exact (IH acc h m l Hd).
Qed.

(** The handler on a batch with items, as one equation. *)
Lemma batch_endpoint_runs (request : Batch.BatchContentRequest) :
  truthy (Batch.contents request) = true ->
  Batch.batch_endpoint F fdiv fmul100 fround1 str_of_exn envs request
  = Api.ret
      {| Batch.results := batch_responses envs 0 (Batch.contents request);
         Batch.summary :=
           summary_for F fdiv fmul100 fround1
                       (batch_responses envs 0 (Batch.contents request)) |}.
Proof.
  intros H. unfold Batch.batch_endpoint, Batch.batch_review_content.
  rewrite H. cbn [negb].
  rewrite (batch_loop_runs (Batch.contents request) Batch.acc_init 0 0 0 eq_refl).
  cbv zeta. cbn [Api.try_except Batch.acc_init Batch.acc_results app
                 List.length].
  unfold Batch.summary_of, summary_for.
  cbn [Batch.acc_results Batch.acc_ratings_count Batch.acc_total_score
       Batch.acc_placeholder_count Batch.round1].
  rewrite !Z.add_0_l.
  destruct (0 <? _); reflexivity.
Qed.

(** X17.  A batch with at least one item is always answered: the blank items
    are left out, the others are reviewed in order, and the summary
    counts the responses, averages their scores and gives the share of
    flagged ones; a batch of blank items only gets zeros. *)
Theorem batch_is_answered (request : Batch.BatchContentRequest) :
  truthy (Batch.contents request) = true ->
  let rs := batch_responses envs 0 (Batch.contents request) in
  let n := Z.of_nat (List.length rs) in
  Batch.batch_endpoint F fdiv fmul100 fround1 str_of_exn envs request
  = Api.ret
      {| Batch.results := rs;
         Batch.summary :=
           {| Batch.total_items := n;
              Batch.average_score :=
                if 0 <? n
                then Batch.Float (fround1 (fdiv (sum_scores rs) n))
                else Batch.Int 0;
              Batch.ratings_distribution :=
                [(lit "High", count_rating (lit "High") rs);
                 (lit "Medium", count_rating (lit "Medium") rs);
                 (lit "Low", count_rating (lit "Low") rs)];
              Batch.items_with_placeholders := count_flagged rs;
              Batch.placeholder_percentage :=
                if 0 <? n
                then Batch.Float
                       (fround1 (fmul100 (fdiv (count_flagged rs) n)))
                else Batch.Int 0 |} |}.
Proof.
  intros H. cbv zeta. rewrite (batch_endpoint_runs request H).
  reflexivity.
Qed.

Lemma batch_responses_rated (k : nat) (contents : list Api.ContentRequest) :
  Forall (fun r => exists q, Api.r_overall_rating r = value q)
         (batch_responses envs k contents).
Proof.
  revert k. induction contents as [|req rest IH]; intros k;
    cbn [batch_responses]; [constructor|].
  destruct (truthy _); [|apply IH].
  constructor; [now eexists|apply IH].
Qed.

Lemma rated_counts (rs : list Api.ContentResponse) :
  Forall (fun r => exists q, Api.r_overall_rating r = value q) rs ->
  count_rating (lit "High") rs + count_rating (lit "Medium") rs
  + count_rating (lit "Low") rs
  = Z.of_nat (List.length rs).
Proof.
  induction 1 as [|r rs (q & Hq) _ IH]; [reflexivity|].
  rewrite !count_rating_cons, Hq. cbn [List.length].
  rewrite Nat2Z.inj_succ, <- IH.
  destruct q;
    repeat match goal with
           | |- context [Batch.str_eqb ?a ?b] =>
               let v := eval vm_compute in (Batch.str_eqb a b) in
               change (Batch.str_eqb a b) with v
           end; lia.
Qed.

Lemma count_flagged_range (rs : list Api.ContentResponse) :
  0 <= count_flagged rs <= Z.of_nat (List.length rs).
Proof.
  unfold count_flagged. pose proof (filter_length_le
    (fun r => fst (Api.r_placeholder_flags r)) rs). lia.
Qed.

Lemma batch_responses_length (k : nat) (contents : list Api.ContentRequest) :
  (List.length (batch_responses envs k contents)
   = List.length (filter has_content contents))%nat.
Proof.
  revert k. induction contents as [|req rest IH]; intros k;
    cbn [batch_responses filter]; [reflexivity|].
  unfold has_content at 1.
  destruct (truthy _); cbn [List.length]; now rewrite IH.
Qed.

(** X18.  In every answer to a batch the three rating counters add up to the
    number of items processed, which is the number of results and of
    non-blank items of the request; the count of flagged items lies
    between 0 and that number. *)
Theorem batch_counts_add_up
        (request : Batch.BatchContentRequest)
        (response : Batch.BatchContentResponse F) :
  Batch.batch_endpoint F fdiv fmul100 fround1 str_of_exn envs request
  = Api.ret response ->
  Batch.total_items (Batch.summary response)
  = Z.of_nat (List.length (Batch.results response))
  /\ List.length (Batch.results response)
     = List.length (filter has_content (Batch.contents request))
  /\ fold_right Z.add 0
       (map snd (Batch.ratings_distribution (Batch.summary response)))
     = Batch.total_items (Batch.summary response)
  /\ 0 <= Batch.items_with_placeholders (Batch.summary response)
       <= Batch.total_items (Batch.summary response).
Proof.
  destruct (truthy (Batch.contents request)) eqn:E.
  - rewrite (batch_endpoint_runs request E). intros [= <-].
    cbn [Batch.results Batch.summary]. unfold summary_for.
    cbn [Batch.total_items Batch.ratings_distribution
         Batch.items_with_placeholders].
    set (rs := batch_responses envs 0 (Batch.contents request)).
    split; [reflexivity|]. split; [apply batch_responses_length|].
    split; [|apply count_flagged_range].
    unfold tally. cbn [map snd fold_right].
    pose proof (rated_counts rs (batch_responses_rated 0 _)). lia.
  - unfold Batch.batch_endpoint, Batch.batch_review_content.
    rewrite E. discriminate.
Qed.

Lemma batch_responses_blank (k : nat) (contents : list Api.ContentRequest) :
  forallb (fun req => negb (has_content req)) contents = true ->
  batch_responses envs k contents = [].
Proof.
  induction contents as [|req rest IH]; [reflexivity|].
  cbn [forallb batch_responses]. unfold has_content at 1.
  intros H. apply andb_true_iff in H as [H1 H2].
  apply negb_true_iff in H1. rewrite H1. now apply IH.
Qed.

(** X19.  A batch whose items are all blank is answered without error, with no
    results and a summary of zeros; the averages are the integer 0, for
    no division takes place. *)
Theorem blank_batch_is_answered_empty (request : Batch.BatchContentRequest) :
  truthy (Batch.contents request) = true ->
  forallb (fun req => negb (has_content req)) (Batch.contents request)
  = true ->
  Batch.batch_endpoint F fdiv fmul100 fround1 str_of_exn envs request
  = Api.ret
      {| Batch.results := [];
         Batch.summary :=
           {| Batch.total_items := 0;
              Batch.average_score := Batch.Int 0;
              Batch.ratings_distribution :=
                [(lit "High", 0); (lit "Medium", 0); (lit "Low", 0)];
              Batch.items_with_placeholders := 0;
              Batch.placeholder_percentage := Batch.Int 0 |} |}.
Proof.
  intros H Hb. rewrite (batch_endpoint_runs request H).
  now rewrite (batch_responses_blank 0 _ Hb).
Qed.

Lemma batch_responses_single (k : nat) (contents : list Api.ContentRequest) :
  Forall2 (fun req resp =>
             exists j, Api.review_endpoint str_of_exn (envs j) req
                       = Api.ret resp)
          (filter has_content contents) (batch_responses envs k contents).
Proof.
  revert k. induction contents as [|req rest IH]; intros k;
    cbn [filter batch_responses]; [constructor|].
  unfold has_content at 1.
  destruct (truthy (strip (Api.content req))) eqn:E; [|apply IH].
  constructor; [|apply IH].
  exists k. unfold Api.review_endpoint. now apply content_is_reviewed.
Qed.

(** X20.  The results of a batch are, item by item and in order, what [/review]
    answers to the non-blank items of the request. *)
Theorem batch_results_are_single_reviews
        (request : Batch.BatchContentRequest)
        (response : Batch.BatchContentResponse F) :
  Batch.batch_endpoint F fdiv fmul100 fround1 str_of_exn envs request
  = Api.ret response ->
  Forall2 (fun req resp =>
             exists j, Api.review_endpoint str_of_exn (envs j) req
                       = Api.ret resp)
          (filter has_content (Batch.contents request))
          (Batch.results response).
Proof.
  destruct (truthy (Batch.contents request)) eqn:E.
  - rewrite (batch_endpoint_runs request E). intros [= <-].
    apply batch_responses_single.
  - unfold Batch.batch_endpoint, Batch.batch_review_content.
    rewrite E. discriminate.
Qed.

End BatchSummary.

(** The batch of three: two results, scores 5 and 65. *)
Lemma batch_is_answered_witness :
  exists response,
    Batch.batch_endpoint ratio ratio_div ratio_mul100 ratio_round1
                         str_of_exn_example example_envs example_batch
    = Api.ret response
    /\ Batch.total_items (Batch.summary response) = 2%Z
    /\ Batch.average_score (Batch.summary response)
       = Batch.Float (F := ratio) (70, 2)%Z.
Proof.
  eexists. split.
  - apply (batch_is_answered ratio ratio_div ratio_mul100 ratio_round1
                             str_of_exn_example example_envs example_batch).
    reflexivity.
  - split; vm_compute; reflexivity.
Defined.

(** The same batch: one Low, one Medium, two items. *)
Lemma batch_counts_add_up_witness :
  exists response,
    Batch.batch_endpoint ratio ratio_div ratio_mul100 ratio_round1
                         str_of_exn_example example_envs example_batch
    = Api.ret response
    /\ fold_right Z.add 0%Z
         (map snd (Batch.ratings_distribution (Batch.summary response)))
       = Batch.total_items (Batch.summary response).
Proof.
  eexists. split; [vm_compute; reflexivity|].
  refine (proj1 (proj2 (proj2
            (batch_counts_add_up ratio ratio_div ratio_mul100 ratio_round1
                                 str_of_exn_example example_envs
                                 example_batch _ _)))).
  vm_compute. reflexivity.
Defined.

(** Two blank items: no result, no error. *)
Lemma blank_batch_is_answered_empty_witness :
  exists response,
    Batch.batch_endpoint ratio ratio_div ratio_mul100 ratio_round1
                         str_of_exn_example example_envs blank_batch
    = Api.ret response
    /\ Batch.results response = [].
Proof.
  eexists. split.
  - apply (blank_batch_is_answered_empty
             ratio ratio_div ratio_mul100 ratio_round1
             str_of_exn_example example_envs blank_batch);
      vm_compute; reflexivity.
  - reflexivity.
Defined.

(** The batch of three and its two non-blank items. *)
Lemma batch_results_are_single_reviews_witness :
  exists response,
    Batch.batch_endpoint ratio ratio_div ratio_mul100 ratio_round1
                         str_of_exn_example example_envs example_batch
    = Api.ret response
    /\ List.length (filter has_content (Batch.contents example_batch))
       = List.length (Batch.results response).
Proof.
  eexists. split; [vm_compute; reflexivity|].
  refine (Forall2_length
            (batch_results_are_single_reviews
               ratio ratio_div ratio_mul100 ratio_round1
               str_of_exn_example example_envs example_batch _ _)).
  vm_compute. reflexivity.
Defined.
